(** * mofa-studio / apps/colang/dataflow/fake_nodes

    A shallow embedding of the five simulation nodes of the colang dataflow
    (text segmenter, conference controller, canned-reply LLM, synthetic TTS
    and conference bridge) together with the properties their design
    document states about them.

    Each node is a single-threaded loop [for event in node: ...] over the
    events delivered by the dataflow runtime.  A node is modelled as a pure
    function from the list of delivered events to the list of
    [node.send_output] calls it performs, with the loop-carried Python
    variables as explicit state.  [print] and [time.sleep] have no effect on
    either and are left out. *)

From Stdlib Require Import ZArith NArith String Ascii List Bool Lia SpecFloat.
From stdpp Require Import base gmap strings list.

Open Scope string_scope.
Open Scope list_scope.

(** ** The Python and dora values the nodes exchange *)

Module Py.

(** A Python [str] is a sequence of Unicode code points. *)
Definition str := list N.

(** An ASCII literal of the source, as a [str]. *)
Definition lit (s : string) : str :=
  map N_of_ascii (list_ascii_of_string s).

Fixpoint startswith (s prefix : str) : bool :=
  match prefix, s with
  | [], _ => true
  | _ :: _, [] => false
  | p :: prefix', c :: s' => (p =? c)%N && startswith s' prefix'
  end.

(** [x in y] on two strings: [x] occurs in [y] as a substring. *)
Fixpoint str_in (x y : str) : bool :=
  startswith y x ||
  match y with
  | [] => false
  | _ :: y' => str_in x y'
  end.

(** [str.isspace] on one code point (CPython's [Py_UNICODE_ISSPACE]). *)
Definition isspace (c : N) : bool :=
  ((9 <=? c) && (c <=? 13) || (28 <=? c) && (c <=? 32)
   || (c =? 133) || (c =? 160) || (c =? 5760)
   || (8192 <=? c) && (c <=? 8202)
   || (c =? 8232) || (c =? 8233) || (c =? 8239) || (c =? 8287)
   || (c =? 12288))%N.

Fixpoint lstrip (s : str) : str :=
  match s with
  | [] => []
  | c :: s' => if isspace c then lstrip s' else s
  end.

Definition rstrip (s : str) : str := rev (lstrip (rev s)).

Definition strip (s : str) : str := rstrip (lstrip s).

(** Truth value of a string: [if s:]. *)
Definition nonempty (s : str) : bool :=
  match s with [] => false | _ :: _ => true end.

(** Values stored in a metadata dictionary. *)
Inductive meta_value :=
| MBool (b : bool)
| MInt (z : Z)
| MStr (s : str).

Definition truthy (v : meta_value) : bool :=
  match v with
  | MBool b => b
  | MInt z => negb (z =? 0)%Z
  | MStr s => nonempty s
  end.

(** [metadata.get(key, False) if metadata else False], as a truth value. *)
Definition get_flag (metadata : gmap string meta_value) (key : string) : bool :=
  match metadata !! key with
  | Some v => truthy v
  | None => false
  end.

(** Events yielded by [for event in node].  [value] is the arrow array of
    an input; every port of these nodes carries strings.  [OTHER] stands
    for the event types no node has a branch for. *)
Inductive event :=
| INPUT (id : string) (value : list str) (metadata : gmap string meta_value)
| STOP
| ERROR
| OTHER.

(** [data[0].as_py()]: [None] is the [IndexError] of an empty array, which
    every handler catches with [except Exception]. *)
Definition data0 (value : list str) : option str := head value.

(** A call that returns normally or raises, with the text [str(e)] of
    the exception. *)
Inductive result (A : Type) :=
| Ok (a : A)
| Raise (message : str).
Arguments Ok {A} a.
Arguments Raise {A} message.

(** Values of a JSON object passed to [json.dumps]. *)
Inductive jvalue :=
| JStr (s : str)
| JInt (z : Z).

(** The one-element array given to [node.send_output]: a string, the
    [json.dumps] of a dictionary (kept as its fields), or bytes. *)
Inductive payload :=
| Text (s : str)
| Json (fields : list (string * jvalue))
| Bytes (b : list Byte.byte).

Record output := Output {
  port : string;
  data : payload;
  meta : gmap string meta_value
}.

(** [node.send_output(port, pa.array([x]))] without metadata. *)
Definition send (p : string) (x : payload) : output := Output p x ∅.

(** [os.environ.get(key, default)] *)
Definition environ_get (environ : gmap string str) (key : string) (default : str) : str :=
  match environ !! key with
  | Some v => v
  | None => default
  end.

(** [event_id in ["myself", "techer"]] *)
Definition is_participant (event_id : string) : bool :=
  String.eqb event_id "myself" || String.eqb event_id "techer".

(** Deleting whitespace: [trimmed s t] holds when [t] is [s] with some of
    its whitespace characters removed and everything else kept in place. *)
Inductive trimmed : str -> str -> Prop :=
| trimmed_nil : trimmed [] []
| trimmed_keep c s t : trimmed s t -> trimmed (c :: s) (c :: t)
| trimmed_drop c s t : isspace c = true -> trimmed s t -> trimmed (c :: s) t.


(** ASCII case folding, the part of [str.lower] used on the control
    words; it instantiates the [lower] parameter of the nodes below. *)
Definition ascii_lower (s : str) : str :=
  map (fun c => if ((65 <=? c) && (c <=? 90))%N then (c + 32)%N else c) s.

End Py.

(** ** fake_text_segmenter.py *)

Module fake_text_segmenter.
Import Py.

(** [PUNCTUATION = "。！？.!?，,；"] *)
Definition PUNCTUATION : str :=
  [12290; 65281; 65311; 46; 33; 63; 65292; 44; 65307]%N.

(** The character class [[...]] built from [re.escape(PUNCTUATION)]. *)
Definition punct_class (c : N) : bool := existsb (N.eqb c) PUNCTUATION.

(** [re.split('([...])', text)]: the text between the matches and, because
    of the capturing group, the matched characters themselves.  [pending]
    is the text read since the last match. *)
Fixpoint re_split_from (pending text : str) : list str :=
  match text with
  | [] => [pending]
  | c :: text' =>
      if punct_class c
      then pending :: [c] :: re_split_from [] text'
      else re_split_from (pending ++ [c]) text'
  end.

Definition re_split (text : str) : list str := re_split_from [] text.

(** The [for s in segments] loop of [segment_text], with its two
    variables [result] and [current]. *)
Fixpoint combine_loop (segments : list str) (result : list str) (current : str)
  : list str * str :=
  match segments with
  | [] => (result, current)
  | s :: segments' =>
      if str_in s PUNCTUATION then
        let current := current ++ s in
        let result :=
          if nonempty (strip current) then result ++ [strip current] else result in
        combine_loop segments' result []
      else
        combine_loop segments' result (current ++ s)
  end.

Definition segment_text (text : str) : list str :=
  if negb (nonempty text) then []
  else
    let segments := re_split text in
    let '(result, current) := combine_loop segments [] [] in
    if nonempty (strip current) then result ++ [strip current] else result.

(** The initial [buffers]: an empty string for "myself" and for "techer". *)
Definition fresh_buffers : gmap string str :=
  <["myself" := []]> (<["techer" := []]> ∅).

Definition segment_port (event_id : string) : string :=
  String.append "text_segment_" event_id.

Definition status_processed (event_id : string) : output :=
  send "status" (Json [("status", JStr (lit "processed")); ("source", JStr (lit event_id))]).

Section Node.
(** [str.lower], a builtin the source does not define. *)
Variable lower : str -> str.

(** The body of [if event_id in ["myself", "techer"]]. *)
Definition on_text (buffers : gmap string str) (event_id : string)
    (value : list str) (metadata : gmap string meta_value)
  : gmap string str * list output :=
  match data0 value with
  | None => (buffers, [])
  | Some text_data =>
      let is_streaming := get_flag metadata "streaming" in
      let is_complete := get_flag metadata "complete" in
      if is_streaming && negb is_complete then
        let buffers := <[event_id := (buffers !!! event_id) ++ text_data]> buffers in
        let segments := segment_text (buffers !!! event_id) in
        if (1 <? length segments)%nat then
          (<[event_id := List.last segments []]> buffers,
           map (fun seg => send (segment_port event_id) (Text seg)) (removelast segments)
           ++ [status_processed event_id])
        else (buffers, [status_processed event_id])
      else
        if nonempty (buffers !!! event_id) then
          let remaining := (buffers !!! event_id) ++ text_data in
          let segments := segment_text remaining in
          (<[event_id := []]> buffers,
           map (fun seg => send (segment_port event_id) (Text seg)) segments
           ++ [status_processed event_id])
        else if nonempty text_data then
          let segments := segment_text text_data in
          (buffers,
           map (fun seg => send (segment_port event_id) (Text seg)) segments
           ++ [status_processed event_id])
        else (buffers, [status_processed event_id])
  end.

(** The body of [if event_type == "INPUT"]. *)
Definition on_input (buffers : gmap string str) (event_id : string)
    (value : list str) (metadata : gmap string meta_value)
  : gmap string str * list output :=
  if is_participant event_id then on_text buffers event_id value metadata
  else if String.eqb event_id "audio_complete" then
    (buffers, [send "status" (Json [("status", JStr (lit "audio_complete"))])])
  else if String.eqb event_id "audio_buffer_control" then (buffers, [])
  else if String.eqb event_id "control" || String.eqb event_id "reset" then
    match data0 value with
    | None => (buffers, [])
    | Some control_data =>
        if str_in (lit "reset") (lower control_data)
        then (fresh_buffers, [])
        else (buffers, [])
    end
  else (buffers, []).

(** [for event in node], up to the [break] on STOP or the end of the
    event stream; returns the buffers and the outputs sent so far. *)
Fixpoint loop (buffers : gmap string str) (events : list event)
  : gmap string str * list output :=
  match events with
  | [] => (buffers, [])
  | STOP :: _ => (buffers, [])
  | INPUT event_id value metadata :: events' =>
      let '(buffers, sent) := on_input buffers event_id value metadata in
      let '(buffers, sent') := loop buffers events' in
      (buffers, sent ++ sent')
  | _ :: events' => loop buffers events'
  end.

Definition main (events : list event) : list output :=
  (loop fresh_buffers events).2
  ++ [send "log" (Text (lit "[FAKE_SEGMENTER] Shutdown complete"))].

End Node.

End fake_text_segmenter.

(** ** fake_conference_controller.py *)

Module fake_conference_controller.
Import Py.

(** [turn_order = ["techer", "myself"]] *)
Definition turn_order : list string := ["techer"; "myself"].

(** The loop-carried variables [current_turn] and [conversation_started]. *)
Record state := State {
  current_turn : nat;
  conversation_started : bool
}.

Definition initial : state := State 0 false.

Section Node.
Variable lower : str -> str.

(** The body of [if event_id == "control"]. *)
Definition on_control (st : state) (value : list str) : state * list output :=
  match data0 value with
  | None => (st, [])
  | Some control_data =>
      if str_in (lit "start") (lower control_data) then
        (State 0 true,
         [send "control_llm2" (Text (lit "start"));
          send "llm_control" (Text (lit "active"));
          send "status" (Json [("status", JStr (lit "started"));
                               ("turn", JStr (lit "techer"))])])
      else if str_in (lit "stop") (lower control_data) then
        (State (current_turn st) false,
         [send "llm_control" (Text (lit "stop"));
          send "status" (Json [("status", JStr (lit "stopped"))])])
      else (st, [])
  end.

(** The body of [elif event_id in ["myself", "techer"]].  The new
    [current_turn] is assigned before [turn_order] is indexed. *)
Definition on_participant (st : state) (value : list str) : state * list output :=
  if conversation_started st then
    match data0 value with
    | None => (st, [])
    | Some text_data =>
        if negb (nonempty text_data) || bool_decide (text_data = []) then
          let current_turn := (current_turn st + 1) mod length turn_order in
          let st := State current_turn (conversation_started st) in
          match turn_order !! current_turn with
          | None => (st, [])
          | Some next_speaker =>
              (st,
               [if String.eqb next_speaker "techer"
                then send "control_llm2" (Text (lit "speak"))
                else send "control_llm1" (Text (lit "speak"));
                send "status" (Json [("status", JStr (lit "turn_change"));
                                     ("turn", JStr (lit next_speaker))])])
          end
        else (st, [])
    end
  else (st, []).

(** The body of [if event_type == "INPUT"]; [session_start] and
    [buffer_status] only print. *)
Definition on_input (st : state) (event_id : string) (value : list str)
  : state * list output :=
  if String.eqb event_id "control" then on_control st value
  else if is_participant event_id then on_participant st value
  else (st, []).

Fixpoint loop (st : state) (events : list event) : state * list output :=
  match events with
  | [] => (st, [])
  | STOP :: _ => (st, [])
  | INPUT event_id value _ :: events' =>
      let '(st, sent) := on_input st event_id value in
      let '(st, sent') := loop st events' in
      (st, sent ++ sent')
  | _ :: events' => loop st events'
  end.

Definition main (events : list event) : list output :=
  (loop initial events).2
  ++ [send "log" (Text (lit "[FAKE_CONTROLLER] Shutdown complete"))].

End Node.

End fake_conference_controller.

(** ** fake_llm.py *)

Module fake_llm.
Import Py.

Definition responses_myself : list str :=
  [ (* 你好！我是学生小明，很高兴参加今天的讨论。 *)
    [20320; 22909; 65281; 25105; 26159; 23398; 29983; 23567; 26126; 65292;
     24456; 39640; 20852; 21442; 21152; 20170; 22825; 30340; 35752; 35770;
     12290];
    (* 我认为这个话题非常有趣。让我分享一下我的观点。 *)
    [25105; 35748; 20026; 36825; 20010; 35805; 39064; 38750; 24120; 26377;
     36259; 12290; 35753; 25105; 20998; 20139; 19968; 19979; 25105; 30340;
     35266; 28857; 12290];
    (* 从我的角度来看，这个问题有很多方面需要考虑。 *)
    [20174; 25105; 30340; 35282; 24230; 26469; 30475; 65292; 36825; 20010;
     38382; 39064; 26377; 24456; 22810; 26041; 38754; 38656; 35201; 32771;
     34385; 12290];
    (* 我同意老师的看法，这确实是一个重要的问题。 *)
    [25105; 21516; 24847; 32769; 24072; 30340; 30475; 27861; 65292; 36825;
     30830; 23454; 26159; 19968; 20010; 37325; 35201; 30340; 38382; 39064;
     12290];
    (* 让我补充一点，我觉得我们还需要考虑实际应用场景。 *)
    [35753; 25105; 34917; 20805; 19968; 28857; 65292; 25105; 35273; 24471;
     25105; 20204; 36824; 38656; 35201; 32771; 34385; 23454; 38469; 24212;
     29992; 22330; 26223; 12290]
  ]%N.

Definition responses_techer : list str :=
  [ (* 同学们好！今天我们来讨论一个有趣的话题。 *)
    [21516; 23398; 20204; 22909; 65281; 20170; 22825; 25105; 20204; 26469;
     35752; 35770; 19968; 20010; 26377; 36259; 30340; 35805; 39064; 12290];
    (* 很好的问题！让我从专业角度来解释一下。 *)
    [24456; 22909; 30340; 38382; 39064; 65281; 35753; 25105; 20174; 19987;
     19994; 35282; 24230; 26469; 35299; 37322; 19968; 19979; 12290];
    (* 这个观点很有见地。我来补充一些背景知识。 *)
    [36825; 20010; 35266; 28857; 24456; 26377; 35265; 22320; 12290; 25105;
     26469; 34917; 20805; 19968; 20123; 32972; 26223; 30693; 35782; 12290];
    (* 大家说得都很好。让我总结一下关键要点。 *)
    [22823; 23478; 35828; 24471; 37117; 24456; 22909; 12290; 35753; 25105;
     24635; 32467; 19968; 19979; 20851; 38190; 35201; 28857; 12290];
    (* 非常精彩的讨论！希望大家继续保持学习热情。 *)
    [38750; 24120; 31934; 24425; 30340; 35752; 35770; 65281; 24076; 26395;
     22823; 23478; 32487; 32493; 20445; 25345; 23398; 20064; 28909; 24773;
     12290]
  ]%N.

(** [FAKE_RESPONSES = {"myself": [...], "techer": [...]}] *)
Definition FAKE_RESPONSES : gmap str (list str) :=
  <[lit "myself" := responses_myself]> (<[lit "techer" := responses_techer]> ∅).

(** [FAKE_RESPONSES.get(participant_id, FAKE_RESPONSES["myself"])] *)
Definition responses_of (participant_id : str) : list str :=
  match FAKE_RESPONSES !! participant_id with
  | Some responses => responses
  | None => FAKE_RESPONSES !!! lit "myself"
  end.

(** One [node.send_output("text", pa.array([char]), {"streaming": True,
    "index": i})] of the [for i, char in enumerate(response)] loop. *)
Definition send_char (i : nat) (char : N) : output :=
  Output "text" (Text [char])
    (<["streaming" := MBool true]> (<["index" := MInt (Z.of_nat i)]> ∅)).

(** The end of stream marker. *)
Definition end_marker : output :=
  Output "text" (Text [])
    (<["streaming" := MBool false]> (<["complete" := MBool true]> ∅)).

Section Node.
Variable lower : str -> str.
(** [os.environ] *)
Variable environ : gmap string str.

Definition participant_id : str := environ_get environ "PARTICIPANT_ID" (lit "myself").

Definition responses : list str := responses_of participant_id.

(** The body of [if event_id == "text"].  A value that cannot be read
    only changes what is printed: the reply is sent all the same.  Both
    tables of [FAKE_RESPONSES] are non-empty, so the index is in range. *)
Definition on_text (response_index : nat) (value : list str) : nat * list output :=
  let response := nth (response_index mod length responses) responses [] in
  (response_index + 1,
   imap send_char response
   ++ [end_marker;
       send "status" (Json [("status", JStr (lit "complete"));
                            ("participant", JStr participant_id)])]).

(** The body of [elif event_id == "control"]. *)
Definition on_control (response_index : nat) (value : list str) : nat * list output :=
  match data0 value with
  | None => (response_index, [])
  | Some control_data =>
      if str_in (lit "reset") (lower control_data)
      then (0, [])
      else (response_index, [])
  end.

Definition on_input (response_index : nat) (event_id : string) (value : list str)
  : nat * list output :=
  if String.eqb event_id "text" then on_text response_index value
  else if String.eqb event_id "control" then on_control response_index value
  else (response_index, []).

Fixpoint loop (response_index : nat) (events : list event) : nat * list output :=
  match events with
  | [] => (response_index, [])
  | STOP :: _ => (response_index, [])
  | INPUT event_id value _ :: events' =>
      let '(response_index, sent) := on_input response_index event_id value in
      let '(response_index, sent') := loop response_index events' in
      (response_index, sent ++ sent')
  | _ :: events' => loop response_index events'
  end.

(** [main] returns right after the loop: nothing is sent after it. *)
Definition main (events : list event) : list output :=
  (loop 0 events).2.

End Node.

End fake_llm.

(** ** fake_tts.py *)

Module fake_tts.
Import Py.

(** Python's [float] is IEEE 754 binary64, rounding to nearest even. *)
Definition prec : Z := 53.
Definition emax : Z := 1024.

(** [float(n)] for an [int] operand of a mixed product. *)
Definition float_of_int (n : Z) : spec_float := binary_normalize prec emax n 0 false.

Definition float_mul (x y : spec_float) : spec_float := SFmul prec emax x y.

(** [int(x)]: truncation towards zero. *)
Definition int_of_float (x : spec_float) : result Z :=
  match x with
  | S754_zero _ => Ok 0%Z
  | S754_finite s m e =>
      let magnitude :=
        match e with
        | Zneg p => Z.shiftr (Zpos m) (Zpos p)
        | _ => Z.shiftl (Zpos m) e
        end in
      Ok (if s then (- magnitude)%Z else magnitude)
  | S754_infinity _ => Raise (lit "cannot convert float infinity to integer")
  | S754_nan => Raise (lit "cannot convert float NaN to integer")
  end.

(** The default [sample_rate=22050]. *)
Definition default_sample_rate : Z := 22050.

(** The default [duration_per_char=0.05]: the double nearest to 1/20,
    [0x1.999999999999ap-5]. *)
Definition default_duration_per_char : spec_float :=
  S754_finite false 7205759403792794 (-57).

(** [num_samples = int(sample_rate * duration)] with
    [duration = len(text) * duration_per_char]. *)
Definition num_samples (text : str) (sample_rate : Z) (duration_per_char : spec_float)
  : result Z :=
  let duration := float_mul (float_of_int (Z.of_nat (length text))) duration_per_char in
  int_of_float (float_mul (float_of_int sample_rate) duration).

(** [struct.pack('<h', sample)] for a sample in the 16-bit range: the low
    byte, then the high byte of its two's complement. *)
Definition pack_h (sample : Z) : list Byte.byte :=
  match Byte.of_N (Z.to_N (sample mod 256)), Byte.of_N (Z.to_N ((sample / 256) mod 256)) with
  | Some low, Some high => [low; high]
  | _, _ => []
  end.

(** [[0] * num_samples] is empty for a negative count, but
    [struct.pack(f'<{num_samples}h', ...)] then raises [struct.error] on
    the minus sign of its format. *)
Definition generate_fake_audio (text : str) (sample_rate : Z)
    (duration_per_char : spec_float) : result (list Byte.byte * Z) :=
  match num_samples text sample_rate duration_per_char with
  | Raise message => Raise message
  | Ok num_samples =>
      let audio_samples := replicate (Z.to_nat num_samples) 0%Z in
      if (num_samples <? 0)%Z then Raise (lit "bad char in struct format")
      else
        let audio_bytes := concat (map pack_h audio_samples) in
        Ok (audio_bytes, sample_rate)
  end.

Section Node.
(** [os.environ] *)
Variable environ : gmap string str.
(** The text of the [IndexError] that [data[0]] raises on an empty
    array; it comes from pyarrow. *)
Variable index_error : str.

Definition voice_name : str := environ_get environ "VOICE_NAME" (lit "Default").
Definition participant_id : str := environ_get environ "PARTICIPANT_ID" (lit "unknown").

Definition status_error (message : str) : output :=
  send "status" (Json [("status", JStr (lit "error")); ("error", JStr message)]).

(** The body of [if event_id == "text"]. *)
Definition on_text (value : list str) : list output :=
  match data0 value with
  | None => [status_error index_error]
  | Some text_data =>
      if nonempty text_data then
        match generate_fake_audio text_data default_sample_rate default_duration_per_char with
        | Raise message => [status_error message]
        | Ok (audio_bytes, sample_rate) =>
            let audio_meta : gmap string meta_value :=
              <["sample_rate" := MInt sample_rate]>
              (<["channels" := MInt 1]>
              (<["format" := MStr (lit "s16le")]>
              (<["text" := MStr text_data]>
              (<["voice" := MStr voice_name]>
              (<["participant" := MStr participant_id]> ∅))))) in
            [Output "audio" (Bytes audio_bytes) audio_meta;
             send "status" (Json [("status", JStr (lit "synthesized"));
                                  ("text_length", JInt (Z.of_nat (length text_data)));
                                  ("audio_bytes", JInt (Z.of_nat (length audio_bytes)));
                                  ("voice", JStr voice_name)]);
             send "segment_complete" (Json [("text", JStr text_data);
                                            ("voice", JStr voice_name)])]
        end
      else []
  end.

Fixpoint loop (events : list event) : list output :=
  match events with
  | [] => []
  | STOP :: _ => []
  | INPUT event_id value _ :: events' =>
      (if String.eqb event_id "text" then on_text value else []) ++ loop events'
  | _ :: events' => loop events'
  end.

Definition main (events : list event) : list output :=
  loop events
  ++ [send "log" (Text (lit "[FAKE_TTS][" ++ voice_name ++ lit "] Shutdown complete"))].

End Node.

End fake_tts.

(** ** fake_bridge.py *)

Module fake_bridge.
Import Py.

(** ["请分享你对这个话题的看法。"] *)
Definition prompt_myself : str :=
  [35831; 20998; 20139; 20320; 23545; 36825; 20010; 35805; 39064; 30340;
   30475; 27861; 12290]%N.

(** ["请开始今天的讨论。"] *)
Definition prompt_other : str :=
  [35831; 24320; 22987; 20170; 22825; 30340; 35752; 35770; 12290]%N.

Section Node.
Variable lower : str -> str.
(** [os.environ] *)
Variable environ : gmap string str.

Definition bridge_target : str := environ_get environ "BRIDGE_TARGET" (lit "myself").

(** The body of [if event_id == "control"]. *)
Definition on_control (value : list str) : list output :=
  match data0 value with
  | None => []
  | Some control_data =>
      if str_in (lit "speak") (lower control_data)
         || str_in (lit "start") (lower control_data) then
        let prompt :=
          if bool_decide (bridge_target = lit "myself")
          then prompt_myself else prompt_other in
        [send "text" (Text prompt);
         send "status" (Json [("status", JStr (lit "sent"));
                              ("target", JStr bridge_target)])]
      else []
  end.

(** The body of [elif event_id in ["myself", "techer"]]. *)
Definition on_participant (value : list str) : list output :=
  match data0 value with
  | None => []
  | Some text_data =>
      if nonempty text_data then
        [send "text" (Text text_data);
         send "status" (Json [("status", JStr (lit "forwarded"));
                              ("target", JStr bridge_target)])]
      else []
  end.

Definition on_input (event_id : string) (value : list str) : list output :=
  if String.eqb event_id "control" then on_control value
  else if is_participant event_id then on_participant value
  else [].

Fixpoint loop (events : list event) : list output :=
  match events with
  | [] => []
  | STOP :: _ => []
  | INPUT event_id value _ :: events' => on_input event_id value ++ loop events'
  | _ :: events' => loop events'
  end.

Definition main (events : list event) : list output :=
  loop events
  ++ [send "log" (Text (lit "[FAKE_BRIDGE][" ++ bridge_target ++ lit "] Shutdown complete"))].

End Node.

End fake_bridge.

(** ** What an observer of a node sees *)

Module Observe.
Import Py.

(** The strings sent on port [p], in the order they were sent. *)
Definition texts_on (p : string) (sent : list output) : list str :=
  omap (fun o =>
          if String.eqb (port o) p
          then match data o with Text s => Some s | _ => None end
          else None) sent.

(** Everything sent on port [p]. *)
Definition sent_on (p : string) (sent : list output) : list output :=
  List.filter (fun o => String.eqb (port o) p) sent.

(** The fragment an event delivers on the port of speaker [sp]. *)
Definition fragment_of (sp : string) (ev : event) : str :=
  match ev with
  | INPUT id (text_data :: _) _ => if String.eqb id sp then text_data else []
  | _ => []
  end.

(** The raw text received for speaker [sp], fragment after fragment. *)
Definition received (sp : string) (events : list event) : str :=
  concat (map (fragment_of sp) events).

(** A control that the segmenter reads as a reset. *)
Definition is_reset (lower : str -> str) (ev : event) : bool :=
  match ev with
  | INPUT id (control_data :: _) _ =>
      (String.eqb id "control" || String.eqb id "reset")
      && str_in (lit "reset") (lower control_data)
  | _ => false
  end.

Definition is_stop (ev : event) : bool :=
  match ev with STOP => true | _ => false end.

(** Events between two resets, before the node is stopped. *)
Definition ingests (lower : str -> str) (ev : event) : bool :=
  negb (is_reset lower ev) && negb (is_stop ev).

(** A fragment of an utterance for speaker [sp] with its two flags. *)
Definition fragment (sp : string) (text_data : str) (streaming complete : bool) : event :=
  INPUT sp [text_data] (<["streaming" := MBool streaming]> (<["complete" := MBool complete]> ∅)).

(** "你好" *)
Definition ni_hao : str := [20320; 22909]%N.
(** "。还有问题吗" *)
Definition hai_you_wenti_ma : str := [12290; 36824; 26377; 38382; 39064; 21527]%N.
(** "？" *)
Definition wenhao : str := [65311]%N.


(** Coordinator states that some sequence of inputs leads to. *)
Inductive reachable (lower : str -> str) : fake_conference_controller.state -> Prop :=
| reachable_initial : reachable lower fake_conference_controller.initial
| reachable_input st event_id value :
    reachable lower st ->
    reachable lower (fake_conference_controller.on_input lower st event_id value).1.

(** The [status] output announcing a change of turn. *)
Definition turn_change (next_speaker : string) : output :=
  send "status" (Json [("status", JStr (lit "turn_change"));
                       ("turn", JStr (lit next_speaker))]).

(** The utterances read off a stream of outputs: the text sent on port
    [text] since the previous fragment flagged [complete], up to and
    including the next one.  [pending] is the text read so far. *)
Fixpoint utterances (pending : str) (sent : list output) : list str :=
  match sent with
  | [] => []
  | o :: sent' =>
      if String.eqb (port o) "text" then
        match data o with
        | Text s =>
            if get_flag (meta o) "complete"
            then (pending ++ s) :: utterances [] sent'
            else utterances (pending ++ s) sent'
        | _ => utterances pending sent'
        end
      else utterances pending sent'
  end.

(** A prompt on the [text] port. *)
Definition prompt (value : list str) : event := INPUT "text" value ∅.

(** [round(x)] on a float: the nearest integer, a tie going to the even
    one. *)
Definition py_round (x : spec_float) : result Z :=
  match x with
  | S754_zero _ => Ok 0%Z
  | S754_finite s m e =>
      let magnitude :=
        match e with
        | Zneg p =>
            let below := Z.shiftr (Zpos m) (Zpos p) in
            let twice_rest := (2 * (Zpos m - Z.shiftl below (Zpos p)))%Z in
            let unit := Z.shiftl 1 (Zpos p) in
            if (twice_rest <? unit)%Z then below
            else if (unit <? twice_rest)%Z then (below + 1)%Z
            else if Z.even below then below else (below + 1)%Z
        | _ => Z.shiftl (Zpos m) e
        end in
      Ok (if s then (- magnitude)%Z else magnitude)
  | S754_infinity _ => Raise (lit "cannot convert float infinity to integer")
  | S754_nan => Raise (lit "cannot convert float NaN to integer")
  end.

(** The sample count as the design document computes it:
    [round(sample_rate * len(text) * duration_per_char)]. *)
Definition documented_sample_count (text : str) (sample_rate : Z)
    (duration_per_char : spec_float) : result Z :=
  py_round (fake_tts.float_mul
              (fake_tts.float_of_int (sample_rate * Z.of_nat (length text)))
              duration_per_char).

(** The integer nearest to [num / den] for [den > 0], a tie going to the
    even one: the same count over the exact rationals. *)
Definition nearest_integer (num den : Z) : Z :=
  let below := (num / den)%Z in
  let twice_rest := (2 * (num mod den))%Z in
  if (twice_rest <? den)%Z then below
  else if (den <? twice_rest)%Z then (below + 1)%Z
  else if Z.even below then below else (below + 1)%Z.

(** [int(22050 * (n * 0.05))]: the sample count of the source for a text
    of length [n] and the default arguments. *)
Definition default_num_samples (n : nat) : result Z :=
  fake_tts.int_of_float
    (fake_tts.float_mul (fake_tts.float_of_int fake_tts.default_sample_rate)
       (fake_tts.float_mul (fake_tts.float_of_int (Z.of_nat n))
          fake_tts.default_duration_per_char)).

(** The sample count of an audio payload of 16-bit samples. *)
Definition sample_count (audio_bytes : list Byte.byte) : Z :=
  (Z.of_nat (length audio_bytes) / 2)%Z.

End Observe.

(** ** Reference functions and predicates for the rest of the code *)

Module Reference.
Import Py.

(** Splitting in one pass over the text: [current] collects characters, a
    punctuation mark is added to it and closes it as a segment. *)
Fixpoint scan (text current : str) : list str :=
  match text with
  | [] => if nonempty (strip current) then [strip current] else []
  | c :: text' =>
      if fake_text_segmenter.punct_class c
      then strip (current ++ [c]) :: scan text' []
      else scan text' (current ++ [c])
  end.

(** No character of [s] is a punctuation mark. *)
Definition punct_free (s : str) : bool :=
  forallb (fun c => negb (fake_text_segmenter.punct_class c)) s.

(** The last character of [seg] is a punctuation mark. *)
Definition ends_in_punct (seg : str) : bool :=
  match last seg with
  | Some c => fake_text_segmenter.punct_class c
  | None => false
  end.

(** Every fragment among the segmenter inputs is a streaming one, not yet
    complete. *)
Definition is_streaming (ev : event) : bool :=
  match ev with
  | INPUT id _ metadata =>
      negb (is_participant id)
      || get_flag metadata "streaming" && negb (get_flag metadata "complete")
  | _ => true
  end.


(** An event without a STOP in it: the loop goes on after it. *)
Definition goes_on (ev : event) : bool := negb (Observe.is_stop ev).

(** An input on the [control] port. *)
Definition is_control (ev : event) : bool :=
  match ev with
  | INPUT id _ _ => String.eqb id "control"
  | _ => false
  end.

(** An end-of-turn signal: an input on a participant port whose text is
    empty. *)
Definition is_end_of_turn (ev : event) : bool :=
  match ev with
  | INPUT id (text_data :: _) _ => is_participant id && negb (nonempty text_data)
  | _ => false
  end.

(** The ports on which the coordinator told a speaker to speak. *)
Definition speak_ports (sent : list output) : list string :=
  omap (fun o => match data o with
                 | Text s => if bool_decide (s = lit "speak") then Some (port o) else None
                 | _ => None
                 end) sent.

(** What a node sends on its [text] port, delivered to the port [id] of
    the node it is wired to: the text and its metadata travel unchanged. *)
Definition deliver (id : string) (sent : list output) : list event :=
  omap (fun o =>
          if String.eqb (port o) "text"
          then match data o with
               | Text s => Some (INPUT id [s] (meta o))
               | _ => None
               end
          else None) sent.

(** A reply as the synthetic speaker streams it. *)
Definition stream (response : str) : list output :=
  imap fake_llm.send_char response ++ [fake_llm.end_marker].

(** A prompt or a control that is not a reset, for the synthetic speaker. *)
Definition keeps_cursor (lower : str -> str) (ev : event) : bool :=
  match ev with
  | INPUT id (control_data :: _) _ =>
      negb (String.eqb id "control" && str_in (lit "reset") (lower control_data))
  | _ => true
  end.

(** The inputs on the [text] port. *)
Definition is_prompt (ev : event) : bool :=
  match ev with
  | INPUT id _ _ => String.eqb id "text"
  | _ => false
  end.

(** The non-empty texts that arrive on the participant ports. *)
Definition participant_text (ev : event) : option str :=
  match ev with
  | INPUT id (text_data :: _) _ =>
      if is_participant id && nonempty text_data then Some text_data else None
  | _ => None
  end.




End Reference.

(** ** Participants and whitespace trimming *)

Module PyFacts.
Import Py.

Lemma participant_cases (id : string) :
  is_participant id = true -> id = "myself" \/ id = "techer".
Proof.
  unfold is_participant. intros H. apply orb_true_iff in H.
  destruct H as [H | H]; apply String.eqb_eq in H; auto.
Qed.


Lemma trimmed_refl (s : str) : trimmed s s.
Proof. induction s; constructor; assumption. Qed.

Lemma trimmed_app (a a' b b' : str) :
  trimmed a a' -> trimmed b b' -> trimmed (a ++ b) (a' ++ b').
Proof.
  intros Ha Hb. induction Ha; simpl.
  - exact Hb.
  - apply trimmed_keep, IHHa.
  - apply trimmed_drop; [assumption | apply IHHa].
Qed.

Lemma trimmed_trans (a b c : str) :
  trimmed a b -> trimmed b c -> trimmed a c.
Proof.
  intros Hab. revert c. induction Hab as [| x s t Hst IH | x s t Hx Hst IH]; intros u Hu.
  - exact Hu.
  - inversion Hu; subst.
    + apply trimmed_keep, IH. assumption.
    + apply trimmed_drop; [assumption | apply IH; assumption].
  - apply trimmed_drop; [assumption | apply IH; assumption].
Qed.

Lemma trimmed_rev (s t : str) : trimmed s t -> trimmed (rev s) (rev t).
Proof.
  induction 1 as [| x s t Hst IH | x s t Hx Hst IH]; simpl.
  - constructor.
  - apply trimmed_app; [exact IH | apply trimmed_refl].
  - rewrite <- (app_nil_r (rev t)).
    apply trimmed_app; [exact IH |]. apply trimmed_drop; [exact Hx | constructor].
Qed.

Lemma trimmed_lstrip (s : str) : trimmed s (lstrip s).
Proof.
  induction s as [| c s IH]; simpl.
  - constructor.
  - destruct (isspace c) eqn:Hc.
    + apply trimmed_drop; assumption.
    + apply trimmed_refl.
Qed.

Lemma trimmed_rstrip (s : str) : trimmed s (rstrip s).
Proof.
  unfold rstrip. rewrite <- (rev_involutive s) at 1.
  apply trimmed_rev, trimmed_lstrip.
Qed.

Lemma trimmed_strip (s : str) : trimmed s (strip s).
Proof.
  unfold strip. eapply trimmed_trans; [apply trimmed_lstrip | apply trimmed_rstrip].
Qed.

Lemma trimmed_blank (s : str) : nonempty (strip s) = false -> trimmed s [].
Proof.
  intros H. pose proof (trimmed_strip s) as Hs.
  destruct (strip s); [exact Hs | discriminate].
Qed.


End PyFacts.

(** ** Facts about [segment_text] *)

Module SegmentFacts.
Import Py fake_text_segmenter PyFacts.

Lemma re_split_from_concat (text pending : str) :
  concat (re_split_from pending text) = pending ++ text.
Proof.
  revert pending. induction text as [| c text IH]; intros pending; simpl.
  - reflexivity.
  - destruct (punct_class c); simpl.
    + rewrite IH. reflexivity.
    + rewrite IH, <- app_assoc. reflexivity.
Qed.

Lemma combine_loop_trimmed (segments : list str) :
  forall result current,
  exists added,
    (combine_loop segments result current).1 = result ++ added
    /\ trimmed (current ++ concat segments)
               (concat added ++ (combine_loop segments result current).2).
Proof.
  induction segments as [| s segments IH]; intros result current;
    cbn [combine_loop concat].
  - exists []. simpl. split; [by rewrite app_nil_r | rewrite app_nil_r; apply trimmed_refl].
  - destruct (str_in s PUNCTUATION); cbv zeta.
    + destruct (nonempty (strip (current ++ s))) eqn:Hblank.
      * destruct (IH (result ++ [strip (current ++ s)]) []) as (added & Hres & Htrim).
        exists (strip (current ++ s) :: added). split.
        -- rewrite Hres, <- app_assoc. reflexivity.
        -- cbn [concat].
           rewrite (app_assoc current s), <- (app_assoc (strip (current ++ s))).
           apply trimmed_app; [apply trimmed_strip | exact Htrim].
      * destruct (IH result []) as (added & Hres & Htrim).
        exists added. split; [exact Hres |].
        rewrite (app_assoc current s).
        change (concat added ++ (combine_loop segments result []).2)
          with ([] ++ (concat added ++ (combine_loop segments result []).2)).
        apply trimmed_app; [apply trimmed_blank; exact Hblank | exact Htrim].
    + destruct (IH result (current ++ s)) as (added & Hres & Htrim).
      exists added. split; [exact Hres |].
      rewrite (app_assoc current s). exact Htrim.
Qed.

(** [segment_text] only deletes whitespace: the segments, put end to end,
    are the text with some whitespace removed. *)
Lemma segment_text_trimmed (text : str) : trimmed text (concat (segment_text text)).
Proof.
  unfold segment_text. destruct text as [| c text]; [constructor |].
  cbn [nonempty negb].
  destruct (combine_loop_trimmed (re_split (c :: text)) [] []) as (added & Hres & Htrim).
  destruct (combine_loop (re_split (c :: text)) [] []) as [result current].
  simpl in Hres, Htrim. subst result.
  unfold re_split in Htrim. rewrite re_split_from_concat in Htrim. simpl in Htrim.
  destruct (nonempty (strip current)) eqn:Hblank.
  - rewrite concat_app. simpl. rewrite app_nil_r.
    eapply trimmed_trans; [exact Htrim |].
    apply trimmed_app; [apply trimmed_refl | apply trimmed_strip].
  - eapply trimmed_trans; [exact Htrim |].
    rewrite <- (app_nil_r (concat added)) at 2.
    apply trimmed_app; [apply trimmed_refl | apply trimmed_blank; exact Hblank].
Qed.

(** ["你好。请问你叫什么？"] as one text gives ["你好。"] and
    ["请问你叫什么？"]. *)
Lemma segment_text_two_sentences :
  segment_text [20320; 22909; 12290; 35831; 38382; 20320; 21483; 20160; 20040; 65311]%N
  = [[20320; 22909; 12290]; [35831; 38382; 20320; 21483; 20160; 20040; 65311]]%N.
Proof. reflexivity. Qed.

End SegmentFacts.

(** ** The segmenter loop conserves the text of each speaker *)

Module SegmenterFacts.
Import Py fake_text_segmenter Observe PyFacts SegmentFacts.

Lemma texts_on_app (p : string) (a b : list output) :
  texts_on p (a ++ b) = texts_on p a ++ texts_on p b.
Proof. apply omap_app. Qed.

Lemma texts_on_segments (p q : string) (segments : list str) :
  texts_on p (map (fun seg => send q (Text seg)) segments)
  = if String.eqb q p then segments else [].
Proof.
  unfold texts_on.
  induction segments as [| seg segments IH]; [by destruct (String.eqb q p) |].
  cbn in *. destruct (String.eqb q p); cbn in *; rewrite IH; reflexivity.
Qed.

Lemma texts_on_status (sp id : string) :
  texts_on (segment_port sp) [status_processed id] = [].
Proof. reflexivity. Qed.

Lemma segment_port_eqb (id sp : string) :
  String.eqb (segment_port id) (segment_port sp) = String.eqb id sp.
Proof. reflexivity. Qed.

(** What [on_text] sends on the segment port of [sp], for an event on
    port [id]. *)
Lemma texts_on_on_text (sp id : string) (segments : list str) :
  texts_on (segment_port sp)
    (map (fun seg => send (segment_port id) (Text seg)) segments ++ [status_processed id])
  = if String.eqb id sp then segments else [].
Proof.
  rewrite texts_on_app, texts_on_status, app_nil_r, texts_on_segments.
  rewrite segment_port_eqb. reflexivity.
Qed.

Lemma removelast_last (segments : list str) :
  (1 <? length segments)%nat = true ->
  concat (removelast segments) ++ List.last segments [] = concat segments.
Proof.
  intros Hlen. destruct segments as [| s segments]; [discriminate |].
  rewrite (app_removelast_last [] (l := s :: segments)) at 3 by discriminate.
  rewrite concat_app. simpl. rewrite app_nil_r. reflexivity.
Qed.

(** One participant event: what was buffered for [sp] plus the fragment
    is what is sent for [sp] plus what stays buffered, up to trimming. *)
Lemma on_text_conserves (sp id : string) (buffers : gmap string str)
    (value : list str) (metadata : gmap string meta_value) :
  trimmed (buffers !!! sp ++ fragment_of sp (INPUT id value metadata))
          (concat (texts_on (segment_port sp) (on_text buffers id value metadata).2)
           ++ (on_text buffers id value metadata).1 !!! sp).
Proof.
  unfold on_text, data0. destruct value as [| text_data value]; cbn [head fragment_of].
  { rewrite app_nil_r. apply trimmed_refl. }
  destruct (get_flag metadata "streaming" && negb (get_flag metadata "complete")).
  - (* streaming *)
    rewrite lookup_total_insert_eq.
    destruct (1 <? length (segment_text (buffers !!! id ++ text_data)))%nat eqn:Hlen;
      cbn [fst snd].
    + rewrite texts_on_on_text.
      destruct (String.eqb_spec id sp) as [-> | Hne].
      * rewrite lookup_total_insert_eq, removelast_last by exact Hlen.
        apply segment_text_trimmed.
      * rewrite !lookup_total_insert_ne by exact Hne.
        rewrite app_nil_r. apply trimmed_refl.
    + rewrite texts_on_status.
      destruct (String.eqb_spec id sp) as [-> | Hne].
      * rewrite lookup_total_insert_eq. apply trimmed_refl.
      * rewrite lookup_total_insert_ne by exact Hne.
        rewrite app_nil_r. apply trimmed_refl.
  - (* complete or not streaming *)
    destruct (nonempty (buffers !!! id)) eqn:Hbuf; cbn [fst snd].
    + rewrite texts_on_on_text.
      destruct (String.eqb_spec id sp) as [-> | Hne].
      * rewrite lookup_total_insert_eq, app_nil_r. apply segment_text_trimmed.
      * rewrite lookup_total_insert_ne by exact Hne.
        rewrite app_nil_r. apply trimmed_refl.
    + destruct (nonempty text_data) eqn:Htext; cbn [fst snd].
      * rewrite texts_on_on_text.
        destruct (String.eqb_spec id sp) as [-> | Hne].
        -- destruct (buffers !!! sp); [| discriminate]. simpl.
           rewrite app_nil_r. apply segment_text_trimmed.
        -- rewrite app_nil_r. apply trimmed_refl.
      * rewrite texts_on_status.
        destruct text_data; [| discriminate].
        destruct (String.eqb id sp); rewrite app_nil_r; apply trimmed_refl.
Qed.

Section Loop.
Variable lower : str -> str.

Lemma on_input_conserves (sp id : string) (buffers : gmap string str)
    (value : list str) (metadata : gmap string meta_value) :
  is_participant sp = true ->
  ingests lower (INPUT id value metadata) = true ->
  trimmed (buffers !!! sp ++ fragment_of sp (INPUT id value metadata))
          (concat (texts_on (segment_port sp) (on_input lower buffers id value metadata).2)
           ++ (on_input lower buffers id value metadata).1 !!! sp).
Proof.
  intros Hsp Hing. unfold on_input.
  destruct (is_participant id) eqn:Hid; [apply on_text_conserves |].
  assert (Hfrag : fragment_of sp (INPUT id value metadata) = []).
  { cbn. destruct value; [reflexivity |].
    destruct (String.eqb_spec id sp) as [-> | _]; [congruence | reflexivity]. }
  rewrite Hfrag, app_nil_r.
  destruct (String.eqb id "audio_complete"); [apply trimmed_refl |].
  destruct (String.eqb id "audio_buffer_control"); [apply trimmed_refl |].
  unfold ingests, is_reset, data0 in *.
  destruct (String.eqb id "control" || String.eqb id "reset"); [| apply trimmed_refl].
  destruct value as [| control_data value]; [apply trimmed_refl |]. cbn [head].
  destruct (str_in (lit "reset") (lower control_data)); [discriminate | apply trimmed_refl].
Qed.

Lemma loop_conserves (sp : string) (events : list event) :
  is_participant sp = true ->
  forall buffers,
  Forall (fun ev => ingests lower ev = true) events ->
  trimmed (buffers !!! sp ++ received sp events)
          (concat (texts_on (segment_port sp) (loop lower buffers events).2)
           ++ (loop lower buffers events).1 !!! sp).
Proof.
  intros Hsp. induction events as [| ev events IH]; intros buffers Hall.
  - cbn. rewrite app_nil_r. apply trimmed_refl.
  - inversion Hall as [| ? ? Hev Hevents]; subst.
    destruct ev as [id value metadata | | |].
    + cbn [loop].
      pose proof (on_input_conserves sp id buffers value metadata Hsp Hev) as Hstep.
      destruct (on_input lower buffers id value metadata) as [buffers1 sent1].
      specialize (IH buffers1 Hevents).
      destruct (loop lower buffers1 events) as [buffers2 sent2].
      cbn [fst snd] in *.
      rewrite texts_on_app, concat_app, <- app_assoc.
      unfold received in *. cbn [map concat]. rewrite app_assoc.
      eapply trimmed_trans.
      * apply trimmed_app; [exact Hstep | apply trimmed_refl].
      * rewrite <- app_assoc. apply trimmed_app; [apply trimmed_refl | exact IH].
    + discriminate Hev.
    + cbn [loop]. apply (IH buffers Hevents).
    + cbn [loop]. apply (IH buffers Hevents).
Qed.

End Loop.

End SegmenterFacts.

(** ** The turn coordinator *)

Module ControllerSpec.
Import Py fake_conference_controller Observe PyFacts.

Lemma next_turn_cases (n : nat) :
  (n + 1) mod length turn_order = 0 \/ (n + 1) mod length turn_order = 1.
Proof.
  pose proof (Nat.mod_upper_bound (n + 1) (length turn_order)) as H.
  cbn [length turn_order] in *. lia.
Qed.

(** C2, as stated, fails: with "techer" holding the turn after a start,
    an end-of-turn signal on the port of "myself" is not ignored. *)
Lemma foreign_end_of_turn_is_not_ignored :
  ~ (forall (st : state) (id : string),
       reachable ascii_lower st ->
       conversation_started st = true ->
       is_participant id = true ->
       turn_order !! current_turn st <> Some id ->
       on_input ascii_lower st id [[]] = (st, [])).
Proof.
  intros Hclaim.
  assert (Hreach : reachable ascii_lower (State 0 true)).
  { exact (reachable_input ascii_lower initial "control" [lit "start"]
             (reachable_initial ascii_lower)). }
  specialize (Hclaim (State 0 true) "myself" Hreach eq_refl eq_refl).
  assert (Hother : turn_order !! current_turn (State 0 true) <> Some "myself")
    by (cbn; discriminate).
  specialize (Hclaim Hother). vm_compute in Hclaim. discriminate Hclaim.
Qed.

(** C2, amended: while running, an end-of-turn signal (an empty fragment)
    on either participant port, the port of the current speaker or not,
    advances the turn index to (index + 1) mod 2 and signals the speaker
    at the new index; while stopped it changes nothing and sends nothing. *)
Theorem end_of_turn_advances_from_any_port
    (lower : str -> str) (st : state) (id : string) (rest : list str) :
  is_participant id = true ->
  on_input lower st id ([] :: rest) =
    if conversation_started st then
      let next := (current_turn st + 1) mod 2 in
      (State next true,
       [send (if (next =? 0)%nat then "control_llm2" else "control_llm1") (Text (lit "speak"));
        turn_change (if (next =? 0)%nat then "techer" else "myself")])
    else (st, []).
Proof.
  intros Hid. unfold on_input, on_participant, data0.
  destruct (participant_cases id Hid) as [-> | ->]; cbn [String.eqb Ascii.eqb Bool.eqb is_participant orb head];
    destruct st as [turn [|]]; cbn [conversation_started current_turn nonempty negb orb];
    try reflexivity;
    destruct (next_turn_cases turn) as [H | H];
    change (length turn_order) with 2 in *; rewrite H; reflexivity.
Qed.

(** "techer" holds the turn and the signal comes in on the port of
    "myself". *)
Lemma end_of_turn_advances_from_any_port_witness :
  is_participant "myself" = true
  /\ on_input ascii_lower (State 0 true) "myself" [[]] =
       (State 1 true,
        [send "control_llm1" (Text (lit "speak")); turn_change "myself"]).
Proof.
  split; [reflexivity |].
  exact (end_of_turn_advances_from_any_port ascii_lower (State 0 true) "myself" [] eq_refl).
Defined.

(** C4: whatever the state, a control containing "start" sets the turn
    index to 0 and signals "techer", the first speaker of the rotation;
    from there an end-of-turn from "techer" hands the turn to "myself"
    and an end-of-turn from "myself" brings the index back to 0 and
    signals "techer" again. *)
Theorem start_then_two_turns_return_to_first
    (lower : str -> str) (st : state) (control_data : str) (rest : list str) :
  str_in (lit "start") (lower control_data) = true ->
  let '(st0, sent0) := on_input lower st "control" (control_data :: rest) in
  let '(st1, sent1) := on_input lower st0 "techer" [[]] in
  let '(st2, sent2) := on_input lower st1 "myself" [[]] in
  turn_order !! 0 = Some "techer"
  /\ st0 = State 0 true
  /\ sent0 = [send "control_llm2" (Text (lit "start"));
              send "llm_control" (Text (lit "active"));
              send "status" (Json [("status", JStr (lit "started"));
                                   ("turn", JStr (lit "techer"))])]
  /\ st1 = State 1 true
  /\ sent1 = [send "control_llm1" (Text (lit "speak")); turn_change "myself"]
  /\ st2 = State 0 true
  /\ sent2 = [send "control_llm2" (Text (lit "speak")); turn_change "techer"].
Proof.
  intros Hstart.
  assert (Hst0 : on_input lower st "control" (control_data :: rest) =
                 (State 0 true,
                  [send "control_llm2" (Text (lit "start"));
                   send "llm_control" (Text (lit "active"));
                   send "status" (Json [("status", JStr (lit "started"));
                                        ("turn", JStr (lit "techer"))])])).
  { unfold on_input, on_control, data0. cbn [String.eqb Ascii.eqb Bool.eqb head].
    rewrite Hstart. reflexivity. }
  rewrite Hst0. repeat split; reflexivity.
Qed.

(** A start in capitals, received while stopped with a stale index. *)
Lemma start_then_two_turns_return_to_first_witness :
  str_in (lit "start") (ascii_lower (lit "START conversation")) = true
  /\ (let '(st0, sent0) :=
        on_input ascii_lower (State 1 false) "control" [lit "START conversation"] in
      let '(st1, sent1) := on_input ascii_lower st0 "techer" [[]] in
      let '(st2, sent2) := on_input ascii_lower st1 "myself" [[]] in
      turn_order !! 0 = Some "techer"
      /\ st0 = State 0 true
      /\ sent0 = [send "control_llm2" (Text (lit "start"));
                  send "llm_control" (Text (lit "active"));
                  send "status" (Json [("status", JStr (lit "started"));
                                       ("turn", JStr (lit "techer"))])]
      /\ st1 = State 1 true
      /\ sent1 = [send "control_llm1" (Text (lit "speak")); turn_change "myself"]
      /\ st2 = State 0 true
      /\ sent2 = [send "control_llm2" (Text (lit "speak")); turn_change "techer"]).
Proof.
  split; [reflexivity |].
  exact (start_then_two_turns_return_to_first ascii_lower (State 1 false)
           (lit "START conversation") [] eq_refl).
Defined.

(** C6, as stated, fails: a stop received while "myself" holds the turn
    (index 1) leaves the index at 1. *)
Lemma stop_keeps_current_index :
  (loop ascii_lower initial
     [INPUT "control" [lit "start"] ∅; INPUT "techer" [[]] ∅]).1 = State 1 true
  /\ (loop ascii_lower initial
        [INPUT "control" [lit "start"] ∅; INPUT "techer" [[]] ∅;
         INPUT "control" [lit "stop"] ∅]).1 = State 1 false
  /\ (loop ascii_lower initial
        [INPUT "control" [lit "start"] ∅; INPUT "techer" [[]] ∅;
         INPUT "control" [lit "stop"] ∅]).1 <> State 0 false.
Proof. repeat split. vm_compute. discriminate. Qed.

(** C6, amended: a stop control (one that does not also contain "start")
    sets the started flag to false and sends "stop" on [llm_control],
    the port shared by the speakers, with a "stopped" status; the turn
    index is left as it was, and it is the next start control that sets
    it to 0. *)
Theorem stop_clears_started_only
    (lower : str -> str) (st : state) (control_data : str) (rest : list str) :
  str_in (lit "start") (lower control_data) = false ->
  str_in (lit "stop") (lower control_data) = true ->
  on_input lower st "control" (control_data :: rest) =
    (State (current_turn st) false,
     [send "llm_control" (Text (lit "stop"));
      send "status" (Json [("status", JStr (lit "stopped"))])])
  /\ forall start_data,
       str_in (lit "start") (lower start_data) = true ->
       (on_input lower (State (current_turn st) false) "control" [start_data]).1
       = State 0 true.
Proof.
  intros Hstart Hstop. split.
  - unfold on_input, on_control, data0. cbn [String.eqb Ascii.eqb Bool.eqb head].
    rewrite Hstart, Hstop. reflexivity.
  - intros start_data Hs. unfold on_input, on_control, data0.
    cbn [String.eqb Ascii.eqb Bool.eqb head]. rewrite Hs. reflexivity.
Qed.

(** "Stop" received while "myself" holds the turn. *)
Lemma stop_clears_started_only_witness :
  str_in (lit "start") (ascii_lower (lit "Stop")) = false
  /\ str_in (lit "stop") (ascii_lower (lit "Stop")) = true
  /\ on_input ascii_lower (State 1 true) "control" [lit "Stop"] =
       (State 1 false,
        [send "llm_control" (Text (lit "stop"));
         send "status" (Json [("status", JStr (lit "stopped"))])]).
Proof.
  split; [reflexivity |]. split; [reflexivity |].
  exact (proj1 (stop_clears_started_only ascii_lower (State 1 true) (lit "Stop") []
                  eq_refl eq_refl)).
Defined.

End ControllerSpec.

(** ** The streaming segmenter *)

Module SegmenterSpec.
Import Py fake_text_segmenter Observe PyFacts SegmenterFacts.

Lemma fresh_buffers_empty (sp : string) :
  is_participant sp = true -> fresh_buffers !!! sp = [].
Proof.
  intros Hsp. destruct (participant_cases sp Hsp) as [-> | ->]; reflexivity.
Qed.

(** C3: streaming "你好", "。还有问题吗", "？" for one speaker sends
    nothing after the first fragment, the chunk "你好。" after the second
    and nothing after the third, "还有问题吗？" staying in the buffer; it
    is sent when a fragment flagged complete arrives. *)
Theorem streaming_example (lower : str -> str) (sp : string) (streaming : bool) :
  is_participant sp = true ->
  let f1 := fragment sp ni_hao true false in
  let f2 := fragment sp hai_you_wenti_ma true false in
  let f3 := fragment sp wenhao true false in
  let done := fragment sp [] streaming true in
  let chunks events := texts_on (segment_port sp) (loop lower fresh_buffers events).2 in
  chunks [f1] = []
  /\ chunks [f1; f2] = [[20320; 22909; 12290]%N]
  /\ chunks [f1; f2; f3] = [[20320; 22909; 12290]%N]
  /\ (loop lower fresh_buffers [f1; f2; f3]).1 !!! sp
     = [36824; 26377; 38382; 39064; 21527; 65311]%N
  /\ chunks [f1; f2; f3; done]
     = [[20320; 22909; 12290]; [36824; 26377; 38382; 39064; 21527; 65311]]%N.
Proof.
  intros Hsp.
  destruct (participant_cases sp Hsp) as [-> | ->];
    destruct streaming; vm_compute; repeat split; reflexivity.
Qed.

(** The three fragments on the port of "techer". *)
Lemma streaming_example_witness :
  is_participant "techer" = true
  /\ texts_on (segment_port "techer")
       (loop ascii_lower fresh_buffers
          [fragment "techer" ni_hao true false;
           fragment "techer" hai_you_wenti_ma true false;
           fragment "techer" wenhao true false]).2
     = [[20320; 22909; 12290]%N].
Proof.
  split; [reflexivity |].
  exact (proj1 (proj2 (proj2
           (streaming_example ascii_lower "techer" false eq_refl)))).
Defined.

End SegmenterSpec.

(** ** The synthetic speaker *)

Module LlmFacts.
Import Py fake_llm Observe.

Lemma responses_of_cases (participant_id : str) :
  responses_of participant_id = responses_myself
  \/ responses_of participant_id = responses_techer.
Proof.
  unfold responses_of, FAKE_RESPONSES.
  destruct (decide (participant_id = lit "myself")) as [-> | Hm].
  { left. rewrite lookup_insert_eq. reflexivity. }
  rewrite lookup_insert_ne by congruence.
  destruct (decide (participant_id = lit "techer")) as [-> | Ht].
  { right. rewrite lookup_insert_eq. reflexivity. }
  rewrite lookup_insert_ne by congruence.
  rewrite lookup_empty, lookup_total_insert_eq. left. reflexivity.
Qed.

Lemma responses_length (environ : gmap string str) : length (responses environ) = 5.
Proof.
  unfold responses. destruct (responses_of_cases (participant_id environ)) as [-> | ->];
    reflexivity.
Qed.

Lemma send_char_not_complete (i : nat) (char : N) :
  get_flag (send_char i char).(meta) "complete" = false.
Proof. reflexivity. Qed.

(** Reading back a reply streamed one character at a time. *)
Lemma utterances_chars (response : str) :
  forall (f : nat -> N -> output) (pending : str) (rest : list output),
  (forall i char, exists j, f i char = send_char j char) ->
  utterances pending (imap f response ++ rest) = utterances (pending ++ response) rest.
Proof.
  induction response as [| char response IH]; intros f pending rest Hf.
  - cbn. rewrite app_nil_r. reflexivity.
  - cbn [imap app]. destruct (Hf 0 char) as [j ->].
    cbn [utterances send_char port data String.eqb Ascii.eqb Bool.eqb].
    rewrite send_char_not_complete, IH.
    + rewrite <- app_assoc. reflexivity.
    + intros i c. apply Hf.
Qed.

Lemma sent_on_text_chars (response : str) :
  forall (f : nat -> N -> output),
  (forall i char, port (f i char) = "text") ->
  List.filter (fun o => String.eqb (port o) "text") (imap f response) = imap f response.
Proof.
  induction response as [| char response IH]; intros f Hf; [reflexivity |].
  cbn [imap List.filter]. rewrite Hf. cbn [String.eqb Ascii.eqb Bool.eqb].
  rewrite IH; [reflexivity |]. intros i c. apply Hf.
Qed.

Lemma sent_on_log_chars (response : str) :
  forall (f : nat -> N -> output),
  (forall i char, port (f i char) = "text") ->
  List.filter (fun o => String.eqb (port o) "log") (imap f response) = [].
Proof.
  induction response as [| char response IH]; intros f Hf; [reflexivity |].
  cbn [imap List.filter]. rewrite Hf. cbn [String.eqb Ascii.eqb Bool.eqb].
  apply IH. intros i c. apply Hf.
Qed.

Section Node.
Variable lower : str -> str.
Variable environ : gmap string str.

Lemma utterances_on_text (n : nat) (value : list str) (pending : str) (rest : list output) :
  utterances pending ((on_text environ n value).2 ++ rest)
  = (pending ++ nth (n mod 5) (responses environ) []) :: utterances [] rest.
Proof.
  unfold on_text. cbn [snd]. rewrite responses_length, <- app_assoc.
  rewrite utterances_chars by (intros i c; exists i; reflexivity).
  cbn. rewrite app_nil_r. reflexivity.
Qed.

(** The replies served to a run of prompts, starting with the cursor
    at [n]: their indices are [n mod 5], [(n + 1) mod 5], ... *)
Lemma loop_prompts_utterances (values : list (list str)) :
  forall n,
  utterances [] (loop lower environ n (map prompt values)).2
  = map (fun i => nth (i mod 5) (responses environ) []) (seq n (length values)).
Proof.
  induction values as [| value values IH]; intros n; [reflexivity |].
  cbn [map prompt loop on_input String.eqb Ascii.eqb Bool.eqb length seq].
  pose proof (utterances_on_text n value []) as Hstep.
  destruct (on_text environ n value) as [n' sent] eqn:Hon.
  assert (Hn : n' = S n).
  { unfold on_text in Hon. injection Hon as <- _. lia. }
  subst n'. specialize (IH (S n)).
  destruct (loop lower environ (S n) (map prompt values)) as [n'' sent'].
  cbn [fst snd] in *. rewrite Hstep, IH. reflexivity.
Qed.

Lemma sent_on_text_on_text (n : nat) (value : list str) :
  sent_on "text" (on_text environ n value).2
  = imap send_char (nth (n mod 5) (responses environ) []) ++ [end_marker].
Proof.
  unfold on_text, sent_on. cbn [snd]. rewrite responses_length.
  rewrite List.filter_app, sent_on_text_chars by reflexivity. reflexivity.
Qed.

End Node.

End LlmFacts.

Module LlmSpec.
Import Py fake_llm Observe LlmFacts.

(** C7: a speaker has 5 canned replies; 7 prompts in a row are answered
    with the replies at indices 0, 1, 2, 3, 4, 0, 1; and a control
    containing "reset" puts the cursor back to 0 whatever it was, so that
    the next prompt is answered with reply 0 again. *)
Theorem canned_reply_cursor
    (lower : str -> str) (environ : gmap string str)
    (v0 v1 v2 v3 v4 v5 v6 : list str)
    (n : nat) (control_data : str) (rest : list str) :
  str_in (lit "reset") (lower control_data) = true ->
  let reply i := nth i (responses environ) [] in
  length (responses environ) = 5
  /\ utterances []
       (loop lower environ 0
          [prompt v0; prompt v1; prompt v2; prompt v3; prompt v4; prompt v5; prompt v6]).2
     = [reply 0; reply 1; reply 2; reply 3; reply 4; reply 0; reply 1]
  /\ on_input lower environ n "control" (control_data :: rest) = (0, [])
  /\ utterances []
       (loop lower environ n [INPUT "control" (control_data :: rest) ∅; prompt v0]).2
     = [reply 0].
Proof.
  intros Hreset reply.
  assert (Hctl : on_input lower environ n "control" (control_data :: rest) = (0, [])).
  { unfold on_input, on_control, data0. cbn [String.eqb Ascii.eqb Bool.eqb head].
    rewrite Hreset. reflexivity. }
  split; [apply responses_length |]. split.
  - exact (loop_prompts_utterances lower environ [v0; v1; v2; v3; v4; v5; v6] 0).
  - split; [exact Hctl |].
    change (loop lower environ n [INPUT "control" (control_data :: rest) ∅; prompt v0])
      with (let '(index, sent) :=
              on_input lower environ n "control" (control_data :: rest) in
            let '(index, sent') := loop lower environ index [prompt v0] in
            (index, sent ++ sent')).
    rewrite Hctl.
    pose proof (loop_prompts_utterances lower environ [v0] 0) as H.
    cbn [map] in H.
    destruct (loop lower environ 0 [prompt v0]) as [n' sent]. exact H.
Qed.

(** Seven prompts to the default participant, and a reset in capitals
    with the cursor at 6. *)
Lemma canned_reply_cursor_witness :
  str_in (lit "reset") (ascii_lower (lit "RESET")) = true
  /\ utterances []
       (loop ascii_lower ∅ 0
          [prompt [[72; 105]%N]; prompt []; prompt []; prompt []; prompt [];
           prompt []; prompt []]).2
     = [nth 0 responses_myself []; nth 1 responses_myself [];
        nth 2 responses_myself []; nth 3 responses_myself [];
        nth 4 responses_myself []; nth 0 responses_myself [];
        nth 1 responses_myself []]
  /\ on_input ascii_lower ∅ 6 "control" [lit "RESET"] = (0, []).
Proof.
  split; [reflexivity |].
  pose proof (canned_reply_cursor ascii_lower ∅ [[72; 105]%N] [] [] [] [] [] []
                6 (lit "RESET") [] eq_refl) as (_ & Hserved & Hreset & _).
  split; [exact Hserved | exact Hreset].
Defined.

(** C8: a prompt on the [text] port, whatever it carries, makes the
    speaker send on [text] one fragment per character of the selected
    reply, the i-th holding the i-th character and flagged
    [streaming=True] with [index] i, then one empty fragment flagged
    [streaming=False, complete=True], and nothing else. *)
Theorem reply_is_streamed
    (lower : str -> str) (environ : gmap string str)
    (response_index : nat) (value : list str) (i : nat) :
  let reply : list N := nth (response_index mod 5) (responses environ) [] in
  sent_on "text" (on_input lower environ response_index "text" value).2 !! i =
    match reply !! i with
    | Some char =>
        Some (Output "text" (Text [char])
                (<["streaming" := MBool true]> (<["index" := MInt (Z.of_nat i)]> ∅)))
    | None =>
        if (i =? length reply)%nat
        then Some (Output "text" (Text [])
                     (<["streaming" := MBool false]> (<["complete" := MBool true]> ∅)))
        else None
    end.
Proof.
  cbv zeta. unfold on_input. cbn [String.eqb Ascii.eqb Bool.eqb].
  rewrite sent_on_text_on_text.
  generalize (nth (response_index mod 5) (responses environ) []) as reply.
  intros reply. destruct (@lookup nat N (list N) _ i reply) as [char |] eqn:Hi.
  - rewrite lookup_app_l by (rewrite length_imap; eapply lookup_lt_Some; exact Hi).
    rewrite list_lookup_imap, Hi. reflexivity.
  - apply lookup_ge_None in Hi.
    rewrite lookup_app_r by (rewrite length_imap; exact Hi).
    rewrite length_imap.
    destruct (Nat.eqb_spec i (length reply)) as [-> | Hne].
    + rewrite Nat.sub_diag. reflexivity.
    + destruct (i - length reply) as [| k] eqn:Hk; [lia | reflexivity].
Qed.

End LlmSpec.

(** ** The synthetic audio timing model *)

Module TtsSpec.
Import Py fake_tts Observe.

Lemma pack_h_silence : pack_h 0 = [Byte.x00; Byte.x00].
Proof. reflexivity. Qed.

Lemma silence_bytes (n : nat) :
  concat (map pack_h (replicate n 0%Z)) = replicate (2 * n) Byte.x00.
Proof.
  induction n as [| n IH]; [reflexivity |].
  replace (2 * S n)%nat with (S (S (2 * n))) by lia.
  cbn [replicate map concat]. rewrite IH, pack_h_silence. reflexivity.
Qed.

Lemma default_num_samples_table :
  forallb (fun n => match default_num_samples n with
                    | Ok z => (z =? 2205 * Z.of_nat n / 2)%Z
                    | Raise _ => false
                    end) (seq 0 4001) = true.
Proof. vm_compute. reflexivity. Qed.

Lemma default_num_samples_floor (n : nat) :
  n <= 4000 -> default_num_samples n = Ok (2205 * Z.of_nat n / 2)%Z.
Proof.
  intros Hn. pose proof default_num_samples_table as Htable.
  rewrite forallb_forall in Htable.
  assert (Hin : In n (seq 0 4001)) by (apply in_seq; lia).
  specialize (Htable n Hin).
  destruct (default_num_samples n) as [z | ?]; [| discriminate].
  apply Z.eqb_eq in Htable. subst z. reflexivity.
Qed.

(** C5, as stated, fails: for a 3-character text the code sends 6614
    bytes, that is 3307 samples, where the documented
    [round(22050 * 3 * 0.05)] is 3308, in double precision as well as
    over the exact rationals (3307.5, a tie, goes to 3308). *)
Lemma truncation_is_not_rounding :
  generate_fake_audio (lit "abc") default_sample_rate default_duration_per_char
    = Ok (replicate (Z.to_nat 6614) Byte.x00, 22050%Z)
  /\ sample_count (replicate (Z.to_nat 6614) Byte.x00) = 3307%Z
  /\ documented_sample_count (lit "abc") default_sample_rate default_duration_per_char
     = Ok 3308%Z
  /\ nearest_integer (22050 * 3 * 1) 20 = 3308%Z.
Proof. vm_compute. repeat split; reflexivity. Qed.

(** C5, amended: for every text whose sample count
    [int(sample_rate * (len(text) * duration_per_char))], the
    double-precision product truncated towards zero and not rounded to the
    nearest integer, is not negative, the audio is silence of that many
    samples, two bytes each (a negative count makes [struct.pack] raise);
    with the defaults 22050 and 0.05 and a text of up to 4000 characters
    the count is 1102.5 times the length rounded down, so that a
    10-character text yields exactly 11025 samples. *)
Theorem sample_count_truncates (text : str) :
  length text <= 4000 ->
  (forall (any_text : str) (sample_rate : Z) (duration_per_char : spec_float),
     match num_samples any_text sample_rate duration_per_char with
     | Ok n =>
         if (n <? 0)%Z then
           generate_fake_audio any_text sample_rate duration_per_char
           = Raise (lit "bad char in struct format")
         else
           generate_fake_audio any_text sample_rate duration_per_char
           = Ok (replicate (2 * Z.to_nat n) Byte.x00, sample_rate)
           /\ sample_count (replicate (2 * Z.to_nat n) Byte.x00) = n
     | Raise message =>
         generate_fake_audio any_text sample_rate duration_per_char = Raise message
     end)
  /\ exists audio_bytes,
       generate_fake_audio text default_sample_rate default_duration_per_char
         = Ok (audio_bytes, 22050%Z)
       /\ Forall (fun b => b = Byte.x00) audio_bytes
       /\ num_samples text default_sample_rate default_duration_per_char
          = Ok (sample_count audio_bytes)
       /\ sample_count audio_bytes = (2205 * Z.of_nat (length text) / 2)%Z.
Proof.
  intros Hlen. split.
  { intros any_text sample_rate duration_per_char. unfold generate_fake_audio.
    destruct (num_samples any_text sample_rate duration_per_char) as [n | message];
      [| reflexivity].
    destruct (n <? 0)%Z eqn:Hneg; [reflexivity |]. apply Z.ltb_ge in Hneg.
    rewrite silence_bytes. split; [reflexivity |].
    unfold sample_count. rewrite length_replicate.
    replace (Z.of_nat (2 * Z.to_nat n)) with (n * 2)%Z by lia.
    apply Z.div_mul. lia. }
  pose proof (default_num_samples_floor (length text) Hlen) as Hn.
  unfold default_num_samples in Hn. fold (num_samples text default_sample_rate
    default_duration_per_char) in Hn.
  set (z := (2205 * Z.of_nat (length text) / 2)%Z) in *.
  assert (Hz : (0 <= z)%Z) by (subst z; apply Z.div_pos; lia).
  exists (replicate (2 * Z.to_nat z) Byte.x00).
  assert (Hcount : sample_count (replicate (2 * Z.to_nat z) Byte.x00) = z).
  { unfold sample_count. rewrite length_replicate.
    replace (Z.of_nat (2 * Z.to_nat z)) with (z * 2)%Z by lia.
    apply Z.div_mul. lia. }
  split; [| split; [| split]].
  - unfold generate_fake_audio.
    rewrite Hn, (proj2 (Z.ltb_ge z 0) Hz), silence_bytes. reflexivity.
  - apply Forall_replicate. reflexivity.
  - rewrite Hcount. exact Hn.
  - exact Hcount.
Qed.

(** A 10-character text: 11025 samples. *)
Lemma sample_count_truncates_witness :
  length (lit "0123456789") <= 4000
  /\ exists audio_bytes,
       generate_fake_audio (lit "0123456789") default_sample_rate default_duration_per_char
         = Ok (audio_bytes, 22050%Z)
       /\ sample_count audio_bytes = 11025%Z.
Proof.
  assert (Hlen : length (lit "0123456789") <= 4000) by (cbn; lia).
  split; [exact Hlen |].
  destruct (sample_count_truncates (lit "0123456789") Hlen)
    as (_ & audio_bytes & Haudio & _ & _ & Hcount).
  exists audio_bytes. split; [exact Haudio | exact Hcount].
Defined.

End TtsSpec.

(** ** Stopping a node *)

Module ShutdownFacts.
Import Py Observe.

(** In every node the loop ends at the first STOP: what follows it is
    never read. *)
Lemma segmenter_loop_stop (lower : str -> str) (before after : list event) :
  forall buffers,
  fake_text_segmenter.loop lower buffers (before ++ STOP :: after)
  = fake_text_segmenter.loop lower buffers before.
Proof.
  induction before as [| ev before IH]; intros buffers; [reflexivity |].
  destruct ev as [id value metadata | | |]; cbn [app fake_text_segmenter.loop];
    [| reflexivity | apply IH | apply IH].
  destruct (fake_text_segmenter.on_input lower buffers id value metadata) as [b sent].
  rewrite IH. reflexivity.
Qed.

Lemma controller_loop_stop (lower : str -> str) (before after : list event) :
  forall st,
  fake_conference_controller.loop lower st (before ++ STOP :: after)
  = fake_conference_controller.loop lower st before.
Proof.
  induction before as [| ev before IH]; intros st; [reflexivity |].
  destruct ev as [id value metadata | | |]; cbn [app fake_conference_controller.loop];
    [| reflexivity | apply IH | apply IH].
  destruct (fake_conference_controller.on_input lower st id value) as [st' sent].
  rewrite IH. reflexivity.
Qed.

Lemma llm_loop_stop (lower : str -> str) (environ : gmap string str)
    (before after : list event) :
  forall response_index,
  fake_llm.loop lower environ response_index (before ++ STOP :: after)
  = fake_llm.loop lower environ response_index before.
Proof.
  induction before as [| ev before IH]; intros n; [reflexivity |].
  destruct ev as [id value metadata | | |]; cbn [app fake_llm.loop];
    [| reflexivity | apply IH | apply IH].
  destruct (fake_llm.on_input lower environ n id value) as [n' sent].
  rewrite IH. reflexivity.
Qed.

Lemma tts_loop_stop (environ : gmap string str) (index_error : str)
    (before after : list event) :
  fake_tts.loop environ index_error (before ++ STOP :: after)
  = fake_tts.loop environ index_error before.
Proof.
  induction before as [| ev before IH]; [reflexivity |].
  destruct ev as [id value metadata | | |]; cbn [app fake_tts.loop];
    [rewrite IH | | |]; auto.
Qed.

Lemma bridge_loop_stop (lower : str -> str) (environ : gmap string str)
    (before after : list event) :
  fake_bridge.loop lower environ (before ++ STOP :: after)
  = fake_bridge.loop lower environ before.
Proof.
  induction before as [| ev before IH]; [reflexivity |].
  destruct ev as [id value metadata | | |]; cbn [app fake_bridge.loop];
    [rewrite IH | | |]; auto.
Qed.

Lemma sent_on_app (p : string) (a b : list output) :
  sent_on p (a ++ b) = sent_on p a ++ sent_on p b.
Proof. apply List.filter_app. Qed.

(** The synthetic speaker sends on [text] and [status] only. *)
Lemma llm_on_input_no_log (lower : str -> str) (environ : gmap string str)
    (response_index : nat) (id : string) (value : list str) :
  sent_on "log" (fake_llm.on_input lower environ response_index id value).2 = [].
Proof.
  unfold fake_llm.on_input.
  destruct (String.eqb id "text").
  - unfold fake_llm.on_text. cbn [snd]. rewrite sent_on_app.
    unfold sent_on at 1. rewrite LlmFacts.sent_on_log_chars by reflexivity. reflexivity.
  - destruct (String.eqb id "control"); [| reflexivity].
    unfold fake_llm.on_control. destruct (data0 value); [| reflexivity].
    destruct (str_in _ _); reflexivity.
Qed.

Lemma llm_loop_no_log (lower : str -> str) (environ : gmap string str)
    (events : list event) :
  forall response_index,
  sent_on "log" (fake_llm.loop lower environ response_index events).2 = [].
Proof.
  induction events as [| ev events IH]; intros n; [reflexivity |].
  destruct ev as [id value metadata | | |]; cbn [fake_llm.loop];
    [| reflexivity | apply IH | apply IH].
  pose proof (llm_on_input_no_log lower environ n id value) as Hstep.
  destruct (fake_llm.on_input lower environ n id value) as [n' sent].
  specialize (IH n').
  destruct (fake_llm.loop lower environ n' events) as [n'' sent'].
  cbn [snd] in *. rewrite sent_on_app, Hstep, IH. reflexivity.
Qed.

End ShutdownFacts.

Module ShutdownSpec.
Import Py Observe ShutdownFacts.

(** C9: in the segmenter, the controller, the TTS and the bridge a STOP
    event ends the loop (the events after it are not read) and the last
    thing the node sends is its shutdown line on [log].  The synthetic
    speaker also leaves its loop at STOP, but it never sends anything on
    [log]: stopped at once, it sends nothing at all. *)
Theorem stop_ends_loop_and_llm_sends_no_log
    (lower : str -> str) (environ : gmap string str) (index_error : str)
    (before after : list event) :
  (fake_text_segmenter.main lower (before ++ STOP :: after)
     = fake_text_segmenter.main lower before
   /\ last (fake_text_segmenter.main lower before)
      = Some (send "log" (Text (lit "[FAKE_SEGMENTER] Shutdown complete"))))
  /\ (fake_conference_controller.main lower (before ++ STOP :: after)
        = fake_conference_controller.main lower before
      /\ last (fake_conference_controller.main lower before)
         = Some (send "log" (Text (lit "[FAKE_CONTROLLER] Shutdown complete"))))
  /\ (fake_tts.main environ index_error (before ++ STOP :: after)
        = fake_tts.main environ index_error before
      /\ last (fake_tts.main environ index_error before)
         = Some (send "log" (Text (lit "[FAKE_TTS][" ++ fake_tts.voice_name environ
                                   ++ lit "] Shutdown complete"))))
  /\ (fake_bridge.main lower environ (before ++ STOP :: after)
        = fake_bridge.main lower environ before
      /\ last (fake_bridge.main lower environ before)
         = Some (send "log" (Text (lit "[FAKE_BRIDGE][" ++ fake_bridge.bridge_target environ
                                   ++ lit "] Shutdown complete"))))
  /\ (fake_llm.main lower environ (before ++ STOP :: after)
        = fake_llm.main lower environ before
      /\ sent_on "log" (fake_llm.main lower environ (before ++ STOP :: after)) = []
      /\ fake_llm.main lower environ (STOP :: after) = []).
Proof.
  unfold fake_text_segmenter.main, fake_conference_controller.main, fake_tts.main,
    fake_bridge.main, fake_llm.main.
  rewrite segmenter_loop_stop, controller_loop_stop, tts_loop_stop, bridge_loop_stop,
    llm_loop_stop, !last_snoc.
  repeat split. apply llm_loop_no_log.
Qed.

End ShutdownSpec.

(** ** The bridge *)

Module BridgeSpec.
Import Py fake_bridge Observe PyFacts.

(** C10: on a participant port the bridge forwards a text exactly when
    it is not empty; an empty string, such as the end-of-utterance
    marker, produces no output at all, neither on [text] nor on
    [status]. *)
Theorem empty_text_is_not_forwarded
    (lower : str -> str) (environ : gmap string str)
    (id : string) (value rest : list str) (metadata : gmap string meta_value) :
  is_participant id = true ->
  on_input lower environ id ([] :: rest) = []
  /\ loop lower environ [INPUT id ([] :: rest) metadata] = []
  /\ texts_on "text" (on_input lower environ id value)
     = match value with
       | text_data :: _ => if nonempty text_data then [text_data] else []
       | [] => []
       end
  /\ (sent_on "status" (on_input lower environ id value) = []
      <-> sent_on "text" (on_input lower environ id value) = []).
Proof.
  intros Hid. unfold loop, on_input, on_participant, data0.
  destruct (participant_cases id Hid) as [-> | ->];
    cbn [String.eqb Ascii.eqb Bool.eqb is_participant orb head nonempty app];
    (split; [reflexivity |]); (split; [reflexivity |]);
    destruct value as [| [| c text_data] value]; cbn; split; try reflexivity;
    split; discriminate.
Qed.

(** The end marker and "你好" on the port of "techer". *)
Lemma empty_text_is_not_forwarded_witness :
  is_participant "techer" = true
  /\ on_input ascii_lower ∅ "techer" [[]] = []
  /\ texts_on "text" (on_input ascii_lower ∅ "techer" [ni_hao])
     = [ni_hao].
Proof.
  split; [reflexivity |].
  pose proof (empty_text_is_not_forwarded ascii_lower ∅ "techer"
                [ni_hao] [] ∅ eq_refl) as (Hempty & _ & Htext & _).
  split; [exact Hempty | exact Htext].
Defined.

End BridgeSpec.

(** ** More on [segment_text] *)

Module SplitFacts.
Import Py fake_text_segmenter Observe Reference PyFacts SegmentFacts.

Lemma punct_not_space (c : N) : punct_class c = true -> isspace c = false.
Proof.
  unfold punct_class, PUNCTUATION. cbn [existsb]. intros H.
  repeat (apply orb_true_iff in H; destruct H as [H | H]);
    try discriminate H; apply N.eqb_eq in H; subst c; reflexivity.
Qed.

Lemma punct_class_In (c : N) : punct_class c = true <-> In c PUNCTUATION.
Proof.
  unfold punct_class. rewrite existsb_exists. split.
  - intros (x & Hin & Heq). apply N.eqb_eq in Heq. subst x. exact Hin.
  - intros Hin. exists c. split; [exact Hin | apply N.eqb_refl].
Qed.

(** What [x in y] means for a non-empty [x]: its first character is in [y]. *)
Lemma str_in_head (y x : str) :
  str_in x y = true -> x = [] \/ exists c x', x = c :: x' /\ In c y.
Proof.
  induction y as [| a y IH]; cbn [str_in startswith]; intros H.
  - destruct x; [left; reflexivity | discriminate].
  - destruct x as [| c x']; [left; reflexivity |]. right.
    apply orb_true_iff in H. destruct H as [H | H].
    + apply andb_true_iff in H. destruct H as [H _]. apply N.eqb_eq in H. subst a.
      exists c, x'. split; [reflexivity | left; reflexivity].
    + destruct (IH H) as [Hnil | (c' & x'' & Heq & Hin)]; [discriminate |].
      injection Heq as -> ->. exists c', x''. split; [reflexivity | right; exact Hin].
Qed.

Lemma str_in_single (y : str) (c : N) : In c y -> str_in [c] y = true.
Proof.
  induction y as [| a y IH]; intros Hin; [destruct Hin |].
  cbn [str_in startswith]. destruct Hin as [-> | Hin].
  - rewrite N.eqb_refl. destruct y; reflexivity.
  - rewrite (IH Hin). apply orb_true_r.
Qed.

(** A piece of text between two punctuation marks is read as punctuation
    by [s in PUNCTUATION] only when it is empty. *)
Lemma punct_free_str_in (s : str) :
  punct_free s = true -> str_in s PUNCTUATION = true -> s = [].
Proof.
  intros Hfree Hin. destruct (str_in_head _ _ Hin) as [Hnil | (c & s' & -> & Hc)];
    [exact Hnil |].
  apply punct_class_In in Hc. unfold punct_free in Hfree. cbn [forallb] in Hfree.
  rewrite Hc in Hfree. discriminate.
Qed.

Lemma lstrip_snoc (s : str) (c : N) :
  isspace c = false -> lstrip (s ++ [c]) = lstrip s ++ [c].
Proof.
  intros Hc. induction s as [| a s IH]; cbn [app lstrip].
  - rewrite Hc. reflexivity.
  - destruct (isspace a); [exact IH | reflexivity].
Qed.

Lemma rstrip_snoc (s : str) (c : N) :
  isspace c = false -> rstrip (s ++ [c]) = s ++ [c].
Proof.
  intros Hc. unfold rstrip. rewrite rev_app_distr. cbn [rev app lstrip].
  rewrite Hc. cbn [rev]. rewrite rev_involutive. reflexivity.
Qed.

Lemma strip_snoc (s : str) (c : N) :
  isspace c = false -> strip (s ++ [c]) = lstrip s ++ [c].
Proof.
  intros Hc. unfold strip. rewrite lstrip_snoc, rstrip_snoc by exact Hc. reflexivity.
Qed.

Lemma punct_free_app (a b : str) :
  punct_free (a ++ b) = punct_free a && punct_free b.
Proof. apply forallb_app. Qed.

(** The split and the recombination, followed from a point of the text on:
    [pending] is what [re.split] has read since the last mark. *)
Lemma combine_loop_scan (text : str) :
  forall (pending : str) (result : list str),
  punct_free pending = true ->
  (let '(result', current) := combine_loop (re_split_from pending text) result [] in
   if nonempty (strip current) then result' ++ [strip current] else result')
  = result ++ scan text pending.
Proof.
  induction text as [| c text IH]; intros pending result Hfree.
  - cbn [re_split_from combine_loop scan].
    destruct (str_in pending PUNCTUATION) eqn:Hin.
    + rewrite (punct_free_str_in pending Hfree Hin). cbn. rewrite app_nil_r. reflexivity.
    + cbn [app]. destruct (nonempty (strip pending)); [reflexivity |].
      rewrite app_nil_r. reflexivity.
  - cbn [re_split_from scan]. destruct (punct_class c) eqn:Hc.
    + assert (Hsingle : str_in [c] PUNCTUATION = true)
        by (apply str_in_single, punct_class_In; exact Hc).
      assert (Hseg : nonempty (strip (pending ++ [c])) = true).
      { rewrite strip_snoc by (apply punct_not_space; exact Hc).
        destruct (lstrip pending); reflexivity. }
      assert (Hfirst :
                combine_loop (pending :: [c] :: re_split_from [] text) result []
                = combine_loop (re_split_from [] text)
                    (result ++ [strip (pending ++ [c])]) []).
      { cbn [combine_loop]. destruct (str_in pending PUNCTUATION) eqn:Hin.
        - pose proof (punct_free_str_in pending Hfree Hin) as Hnil. subst pending.
          change (nonempty (strip ([] ++ []))) with false. cbv iota.
          rewrite Hsingle. change (([] ++ []) ++ [c]) with ([] ++ [c]).
          rewrite Hseg. reflexivity.
        - change ([] ++ pending) with pending. rewrite Hsingle, Hseg. reflexivity. }
      rewrite Hfirst, (IH [] (result ++ [strip (pending ++ [c])]) eq_refl), <- app_assoc.
      reflexivity.
    + apply IH. rewrite punct_free_app, Hfree. unfold punct_free. cbn [forallb].
      rewrite Hc. reflexivity.
Qed.

Lemma segment_text_scan (text : str) : segment_text text = scan text [].
Proof.
  destruct text as [| c text]; [reflexivity |].
  unfold segment_text, re_split. cbn [nonempty negb].
  exact (combine_loop_scan (c :: text) [] [] eq_refl).
Qed.

End SplitFacts.

Module StripFacts.
Import Py PyFacts.

Lemma lstrip_idem (s : str) : lstrip (lstrip s) = lstrip s.
Proof.
  induction s as [| c s IH]; [reflexivity |]. cbn [lstrip].
  destruct (isspace c) eqn:Hc; [exact IH |]. cbn [lstrip]. rewrite Hc. reflexivity.
Qed.

Lemma rstrip_idem (s : str) : rstrip (rstrip s) = rstrip s.
Proof. unfold rstrip. rewrite rev_involutive, lstrip_idem. reflexivity. Qed.

Lemma lstrip_snoc_space (s : str) (c : N) :
  isspace c = true ->
  lstrip (s ++ [c]) = match lstrip s with [] => [] | _ :: _ => lstrip s ++ [c] end.
Proof.
  intros Hc. induction s as [| a s IH]; cbn [app lstrip].
  - rewrite Hc. reflexivity.
  - destruct (isspace a); [exact IH | reflexivity].
Qed.

Lemma rstrip_cons (c : N) (s : str) :
  rstrip (c :: s) =
    if isspace c then match rstrip s with [] => [] | _ :: _ => c :: rstrip s end
    else c :: rstrip s.
Proof.
  unfold rstrip. cbn [rev]. destruct (isspace c) eqn:Hc.
  - rewrite lstrip_snoc_space by exact Hc.
    destruct (lstrip (rev s)) as [| a l] eqn:Hl; [reflexivity |].
    rewrite rev_app_distr. cbn [rev app].
    destruct (rev l ++ [a]) eqn:Hr; [destruct (rev l); discriminate | reflexivity].
  - rewrite SplitFacts.lstrip_snoc by exact Hc. rewrite rev_app_distr. reflexivity.
Qed.

(** Stripping the left end and stripping the right end commute. *)
Lemma lstrip_rstrip (s : str) : lstrip (rstrip s) = rstrip (lstrip s).
Proof.
  induction s as [| c s IH]; [reflexivity |].
  rewrite rstrip_cons. cbn [lstrip]. destruct (isspace c) eqn:Hc.
  - rewrite <- IH. destruct (rstrip s) as [| a l]; [reflexivity |].
    cbn [lstrip]. rewrite Hc. reflexivity.
  - cbn [lstrip]. rewrite Hc, rstrip_cons, Hc. reflexivity.
Qed.

Lemma strip_idem (s : str) : strip (strip s) = strip s.
Proof.
  unfold strip. rewrite lstrip_rstrip, lstrip_idem, rstrip_idem. reflexivity.
Qed.

Lemma forallb_trimmed (P : N -> bool) (s t : str) :
  trimmed s t -> forallb P s = true -> forallb P t = true.
Proof.
  induction 1 as [| x s t Hst IH | x s t Hx Hst IH]; cbn [forallb]; intros H.
  - reflexivity.
  - apply andb_true_iff in H. destruct H as [Hx Hs]. rewrite Hx, (IH Hs). reflexivity.
  - apply andb_true_iff in H. destruct H as [_ Hs]. exact (IH Hs).
Qed.

Lemma forallb_removelast (P : N -> bool) (s : str) :
  forallb P s = true -> forallb P (removelast s) = true.
Proof.
  induction s as [| c s IH]; [reflexivity |]. cbn [forallb removelast]. intros H.
  apply andb_true_iff in H. destruct H as [Hc Hs].
  destruct s as [| a s']; [reflexivity |]. cbn [forallb]. rewrite Hc.
  exact (IH Hs).
Qed.

End StripFacts.

Module SplitSpec.
Import Py fake_text_segmenter Observe Reference PyFacts SegmentFacts SplitFacts StripFacts.

(** X1: the regular-expression split followed by the recombination loop
    computes the same segments as one pass over the text that closes a
    segment at each punctuation mark. *)
Theorem segment_text_is_one_pass (text : str) : segment_text text = scan text [].
Proof. apply segment_text_scan. Qed.

Lemma scan_segments_trimmed (text : str) :
  forall current,
  Forall (fun seg => nonempty seg = true /\ strip seg = seg) (scan text current).
Proof.
  induction text as [| c text IH]; intros current; cbn [scan].
  - destruct (nonempty (strip current)) eqn:Hne; constructor; [| constructor].
    split; [exact Hne | apply strip_idem].
  - destruct (punct_class c) eqn:Hc; [| apply IH].
    constructor; [| apply IH]. split; [| apply strip_idem].
    rewrite strip_snoc by (apply punct_not_space; exact Hc).
    destruct (lstrip current); reflexivity.
Qed.

(** X2: a segment is never empty and never starts or ends with
    whitespace. *)
Theorem segments_are_trimmed (text : str) :
  Forall (fun seg => nonempty seg = true /\ strip seg = seg) (segment_text text).
Proof. rewrite segment_text_scan. apply scan_segments_trimmed. Qed.

Lemma scan_punctuation (text : str) :
  forall current,
  punct_free current = true ->
  Forall (fun seg => punct_free (removelast seg) = true) (scan text current)
  /\ Forall (fun seg => ends_in_punct seg = true) (removelast (scan text current)).
Proof.
  induction text as [| c text IH]; intros current Hfree; cbn [scan].
  - destruct (nonempty (strip current)); split; repeat constructor.
    apply forallb_removelast. apply (forallb_trimmed _ current); [apply trimmed_strip | exact Hfree].
  - destruct (punct_class c) eqn:Hc.
    + destruct (IH [] eq_refl) as [Hbody Hlast].
      rewrite strip_snoc by (apply punct_not_space; exact Hc). split.
      * constructor; [| exact Hbody]. rewrite removelast_last.
        apply (forallb_trimmed _ current); [apply trimmed_lstrip | exact Hfree].
      * cbn [removelast]. destruct (scan text []) as [| seg rest] eqn:Hscan; constructor.
        -- unfold ends_in_punct. rewrite last_snoc. exact Hc.
        -- exact Hlast.
    + apply IH. rewrite punct_free_app, Hfree. unfold punct_free. cbn [forallb].
      rewrite Hc. reflexivity.
Qed.

(** X3: a punctuation mark only ever stands at the end of a segment, and
    every segment but the last ends with one. *)
Theorem punctuation_closes_segments (text : str) :
  Forall (fun seg => punct_free (removelast seg) = true) (segment_text text)
  /\ Forall (fun seg => ends_in_punct seg = true) (removelast (segment_text text)).
Proof. rewrite segment_text_scan. apply scan_punctuation. reflexivity. Qed.

Lemma scan_punct_free (text : str) :
  forall current,
  punct_free text = true -> scan text current = scan [] (current ++ text).
Proof.
  induction text as [| c text IH]; intros current Hfree.
  - rewrite app_nil_r. reflexivity.
  - unfold punct_free in Hfree. cbn [forallb] in Hfree.
    apply andb_true_iff in Hfree. destruct Hfree as [Hc Hfree].
    apply negb_true_iff in Hc. cbn [scan]. rewrite Hc, (IH _ Hfree), <- app_assoc.
    reflexivity.
Qed.

(** X4: a text without any punctuation mark gives one segment, the text
    stripped, or none when the text is empty or all whitespace. *)
Theorem unpunctuated_text_is_one_segment (text : str) :
  punct_free text = true ->
  segment_text text = if nonempty (strip text) then [strip text] else [].
Proof.
  intros Hfree. rewrite segment_text_scan, (scan_punct_free text [] Hfree).
  reflexivity.
Qed.

(** "  hello world " gives "hello world"; three spaces give nothing. *)
Lemma unpunctuated_text_is_one_segment_witness :
  punct_free (lit "  hello world ") = true
  /\ segment_text (lit "  hello world ") = [lit "hello world"]
  /\ segment_text (lit "   ") = [].
Proof.
  split; [reflexivity |]. split.
  - exact (unpunctuated_text_is_one_segment (lit "  hello world ") eq_refl).
  - exact (unpunctuated_text_is_one_segment (lit "   ") eq_refl).
Defined.

End SplitSpec.

(** ** More on the segmenter loop *)

Module SegmenterLoopFacts.
Import Py fake_text_segmenter Observe Reference PyFacts SegmentFacts SegmenterFacts
  SplitFacts StripFacts.



Lemma Forall_last (P : str -> Prop) (l : list str) (d : str) :
  Forall P l -> l <> [] -> P (List.last l d).
Proof.
  induction 1 as [| x l Hx Hl IH]; intros Hne; [congruence |].
  destruct l as [| y l']; [exact Hx |]. apply IH. discriminate.
Qed.

Lemma segment_text_nil : segment_text [] = [].
Proof. reflexivity. Qed.

(** The loop goes through a run of events without a STOP and carries on
    with the rest. *)
Lemma segmenter_loop_app (lower : str -> str) (before after : list event) :
  forall buffers,
  Forall (fun ev => goes_on ev = true) before ->
  loop lower buffers (before ++ after)
  = (let '(buffers1, sent1) := loop lower buffers before in
     let '(buffers2, sent2) := loop lower buffers1 after in
     (buffers2, sent1 ++ sent2)).
Proof.
  induction before as [| ev before IH]; intros buffers Hall.
  - cbn. destruct (loop lower buffers after). reflexivity.
  - inversion Hall as [| ? ? Hev Hbefore]; subst.
    destruct ev as [id value metadata | | |]; cbn [app loop];
      [| discriminate Hev | apply IH, Hbefore | apply IH, Hbefore].
    destruct (on_input lower buffers id value metadata) as [b sent].
    rewrite (IH b Hbefore).
    destruct (loop lower b before) as [b1 sent1].
    destruct (loop lower b1 after) as [b2 sent2].
    rewrite app_assoc. reflexivity.
Qed.

(** The speaker's buffer after one readable fragment. *)
Lemma on_text_buffer_after (buffers : gmap string str) (id : string)
    (text_data : str) (rest : list str) (metadata : gmap string meta_value) :
  nonempty ((on_text buffers id (text_data :: rest) metadata).1 !!! id)
  = if get_flag metadata "streaming" && negb (get_flag metadata "complete")
    then nonempty (buffers !!! id ++ text_data)
    else false.
Proof.
  unfold on_text, data0. cbn [head].
  destruct (get_flag metadata "streaming" && negb (get_flag metadata "complete")).
  - rewrite lookup_total_insert_eq.
    destruct (1 <? length (segment_text (buffers !!! id ++ text_data)))%nat eqn:Hlen;
      cbn [fst]; rewrite lookup_total_insert_eq; [| reflexivity].
    destruct (buffers !!! id ++ text_data) as [| c s] eqn:Hs; [discriminate Hlen |].
    cbn [nonempty].
    assert (Hne : segment_text (c :: s) <> []) by (intros E; rewrite E in Hlen; discriminate).
    pose proof (SplitSpec.scan_segments_trimmed (c :: s) []) as Hall.
    rewrite <- segment_text_scan in Hall.
    exact (proj1 (Forall_last _ _ [] Hall Hne)).
  - destruct (nonempty (buffers !!! id)) eqn:Hbuf; cbn [fst].
    + rewrite lookup_total_insert_eq. reflexivity.
    + destruct (nonempty text_data); cbn [fst]; exact Hbuf.
Qed.


End SegmenterLoopFacts.

Module SegmenterLoopSpec.
Import Py fake_text_segmenter Observe Reference PyFacts SegmentFacts SegmenterFacts
  SplitFacts StripFacts SegmenterLoopFacts.



(** X6: a streaming fragment leaves the speaker's buffer non-empty as soon
    as there is any text, even when that text is a finished sentence; a
    fragment that is complete, or not streaming, always leaves it empty. *)
Theorem only_completion_empties_buffer
    (lower : str -> str) (buffers : gmap string str) (id : string)
    (text_data : str) (rest : list str) (metadata : gmap string meta_value) :
  is_participant id = true ->
  nonempty ((on_input lower buffers id (text_data :: rest) metadata).1 !!! id)
  = if get_flag metadata "streaming" && negb (get_flag metadata "complete")
    then nonempty (buffers !!! id ++ text_data)
    else false.
Proof.
  intros Hid. unfold on_input. rewrite Hid. apply on_text_buffer_after.
Qed.

(** "Done." streamed alone stays in the buffer. *)
Lemma only_completion_empties_buffer_witness :
  is_participant "techer" = true
  /\ (on_input ascii_lower fresh_buffers "techer" [lit "Done."]
        (<["streaming" := MBool true]> ∅)).1 !!! "techer" = lit "Done."
  /\ nonempty
       ((on_input ascii_lower fresh_buffers "techer" [lit "Done."]
           (<["streaming" := MBool true]> ∅)).1 !!! "techer") = true.
Proof.
  split; [reflexivity |]. split; [reflexivity |].
  exact (only_completion_empties_buffer ascii_lower fresh_buffers "techer" (lit "Done.") []
           (<["streaming" := MBool true]> ∅) eq_refl).
Defined.

(** X7: an input on one port, unless it is a reset, neither changes the
    buffer of another speaker nor sends anything on that speaker's segment
    port. *)
Theorem speakers_do_not_interfere
    (lower : str -> str) (buffers : gmap string str) (id sp : string)
    (value : list str) (metadata : gmap string meta_value) :
  id <> sp ->
  is_reset lower (INPUT id value metadata) = false ->
  (on_input lower buffers id value metadata).1 !!! sp = buffers !!! sp
  /\ texts_on (segment_port sp) (on_input lower buffers id value metadata).2 = [].
Proof.
  intros Hne Hreset. apply String.eqb_neq in Hne as Heqb. unfold on_input.
  destruct (is_participant id).
  - unfold on_text. destruct (data0 value) as [text_data |]; [| split; reflexivity].
    destruct (get_flag metadata "streaming" && negb (get_flag metadata "complete")).
    + rewrite lookup_total_insert_eq.
      destruct (Nat.ltb 1 (length (segment_text (buffers !!! id ++ text_data))));
        cbn [fst snd]; rewrite ?lookup_total_insert_ne by exact Hne;
        rewrite ?texts_on_on_text, ?Heqb; split; reflexivity.
    + destruct (nonempty (buffers !!! id)); [| destruct (nonempty text_data)];
        cbn [fst snd]; rewrite ?lookup_total_insert_ne by exact Hne;
        rewrite ?texts_on_on_text, ?Heqb; split; reflexivity.
  - destruct (String.eqb id "audio_complete"); [split; reflexivity |].
    destruct (String.eqb id "audio_buffer_control"); [split; reflexivity |].
    unfold is_reset, data0 in *.
    destruct (String.eqb id "control" || String.eqb id "reset"); [| split; reflexivity].
    destruct value as [| control_data value]; [split; reflexivity |]. cbn [head].
    cbn [andb] in Hreset. rewrite Hreset. split; reflexivity.
Qed.

(** A flush for "techer" while "myself" has text buffered. *)
Lemma speakers_do_not_interfere_witness :
  "techer" <> "myself"
  /\ is_reset ascii_lower (fragment "techer" (lit "Yes. No") false true) = false
  /\ (on_input ascii_lower (<["myself" := lit "Wait"]> fresh_buffers) "techer"
        [lit "Yes. No"] ∅).1 !!! "myself" = lit "Wait".
Proof.
  assert (Hne : "techer" <> "myself") by discriminate.
  split; [exact Hne |]. split; [reflexivity |].
  exact (proj1 (speakers_do_not_interfere ascii_lower (<["myself" := lit "Wait"]> fresh_buffers)
                  "techer" "myself" [lit "Yes. No"] ∅ Hne eq_refl)).
Defined.

Lemma on_input_reset (lower : str -> str) (buffers : gmap string str) (id : string)
    (value : list str) (metadata : gmap string meta_value) :
  is_reset lower (INPUT id value metadata) = true ->
  on_input lower buffers id value metadata = (fresh_buffers, []).
Proof.
  unfold is_reset, on_input, data0. destruct value as [| control_data value]; [discriminate |].
  intros H. apply andb_true_iff in H. destruct H as [Hport Hword].
  apply orb_true_iff in Hport.
  destruct Hport as [Hport | Hport]; apply String.eqb_eq in Hport; subst id;
    cbn [is_participant String.eqb Ascii.eqb Bool.eqb orb head]; rewrite Hword; reflexivity.
Qed.

(** X8: a reset makes the node forget.  Whatever came before it, what the
    node sends after a reset control is what a node just started sends
    for the same events; the reset itself sends nothing. *)
Theorem reset_is_a_restart
    (lower : str -> str) (before after : list event) (reset_event : event) :
  Forall (fun ev => goes_on ev = true) before ->
  is_reset lower reset_event = true ->
  main lower (before ++ reset_event :: after)
  = (loop lower fresh_buffers before).2 ++ main lower after.
Proof.
  intros Hbefore Hreset. unfold main.
  rewrite (segmenter_loop_app lower before (reset_event :: after) fresh_buffers Hbefore).
  destruct (loop lower fresh_buffers before) as [buffers1 sent1].
  destruct reset_event as [id value metadata | | |]; try discriminate Hreset.
  cbn [loop]. rewrite (on_input_reset lower buffers1 id value metadata Hreset).
  destruct (loop lower fresh_buffers after) as [buffers2 sent2].
  cbn [snd app]. rewrite app_assoc. reflexivity.
Qed.

(** "Lost" is buffered and reset away before the flush. *)
Lemma reset_is_a_restart_witness :
  Forall (fun ev => goes_on ev = true) [fragment "myself" (lit "Lost") true false]
  /\ is_reset ascii_lower (INPUT "control" [lit "RESET"] ∅) = true
  /\ main ascii_lower
       [fragment "myself" (lit "Lost") true false;
        INPUT "control" [lit "RESET"] ∅;
        fragment "myself" (lit "Kept.") false true]
     = status_processed "myself"
       :: main ascii_lower [fragment "myself" (lit "Kept.") false true].
Proof.
  assert (H : Forall (fun ev => goes_on ev = true) [fragment "myself" (lit "Lost") true false])
    by (repeat constructor).
  split; [exact H |]. split; [reflexivity |].
  exact (reset_is_a_restart ascii_lower [fragment "myself" (lit "Lost") true false]
           [fragment "myself" (lit "Kept.") false true]
           (INPUT "control" [lit "RESET"] ∅) H eq_refl).
Defined.

End SegmenterLoopSpec.

(** ** More on the turn coordinator *)

Module ControllerLoopFacts.
Import Py fake_conference_controller Observe Reference PyFacts.

Lemma on_input_turn_bound (lower : str -> str) (st : state) (id : string)
    (value : list str) :
  current_turn st < length turn_order ->
  current_turn (on_input lower st id value).1 < length turn_order.
Proof.
  intros Hst. unfold on_input, on_control, on_participant.
  assert (Hmod : (current_turn st + 1) mod length turn_order < length turn_order)
    by (apply Nat.mod_upper_bound; discriminate).
  destruct (String.eqb id "control").
  - destruct (data0 value) as [control_data |]; [| exact Hst].
    destruct (str_in (lit "start") (lower control_data)); [cbn; lia |].
    destruct (str_in (lit "stop") (lower control_data)); exact Hst.
  - destruct (is_participant id); [| exact Hst].
    destruct (conversation_started st); [| exact Hst].
    destruct (data0 value) as [text_data |]; [| exact Hst].
    destruct (negb (nonempty text_data) || bool_decide (text_data = [])); [| exact Hst].
    destruct (turn_order !! ((current_turn st + 1) mod length turn_order)); exact Hmod.
Qed.

(** One end-of-turn signal while running. *)
Lemma on_input_end_of_turn (lower : str -> str) (turn : nat) (id : string)
    (value : list str) (metadata : gmap string meta_value) :
  is_end_of_turn (INPUT id value metadata) = true ->
  on_input lower (State turn true) id value =
    (State ((turn + 1) mod 2) true,
     [send (if ((turn + 1) mod 2 =? 0)%nat then "control_llm2" else "control_llm1")
        (Text (lit "speak"));
      turn_change (if ((turn + 1) mod 2 =? 0)%nat then "techer" else "myself")]).
Proof.
  unfold is_end_of_turn. destruct value as [| text_data rest]; [discriminate |].
  intros H. apply andb_true_iff in H. destruct H as [Hid Htext].
  apply negb_true_iff in Htext. unfold on_input, on_participant, data0.
  destruct (participant_cases id Hid) as [-> | ->];
    cbn [String.eqb Ascii.eqb Bool.eqb is_participant orb head conversation_started
         current_turn];
    rewrite Htext; cbn [negb orb];
    change (length turn_order) with 2;
    pose proof (Nat.mod_upper_bound (turn + 1) 2) as Hb;
    destruct ((turn + 1) mod 2) as [| [| k]]; try lia; reflexivity.
Qed.

Lemma on_input_quiet (lower : str -> str) (st : state) (id : string)
    (value : list str) (metadata : gmap string meta_value) :
  negb (is_control (INPUT id value metadata))
  && negb (conversation_started st && is_end_of_turn (INPUT id value metadata)) = true ->
  on_input lower st id value = (st, []).
Proof.
  unfold is_control, is_end_of_turn, on_input, on_participant, data0.
  intros H. apply andb_true_iff in H. destruct H as [Hctl Hend].
  apply negb_true_iff in Hctl. rewrite Hctl.
  destruct (is_participant id); [| reflexivity].
  destruct (conversation_started st); [| reflexivity].
  destruct value as [| text_data rest]; [reflexivity |]. cbn [head].
  cbn [andb] in Hend. apply negb_true_iff, negb_false_iff in Hend.
  destruct text_data; [discriminate | reflexivity].
Qed.

Lemma speak_ports_app (a b : list output) :
  speak_ports (a ++ b) = speak_ports a ++ speak_ports b.
Proof. apply omap_app. Qed.

Lemma speak_ports_signal (p next_speaker : string) :
  speak_ports [send p (Text (lit "speak")); turn_change next_speaker] = [p].
Proof. reflexivity. Qed.

End ControllerLoopFacts.

Module ControllerLoopSpec.
Import Py fake_conference_controller Observe Reference PyFacts ControllerLoopFacts.

(** X9: whatever inputs the coordinator has received, its turn index is
    a valid index into the rotation, so that looking up the next speaker
    never fails. *)
Theorem turn_index_stays_in_rotation (lower : str -> str) (st : state) :
  reachable lower st ->
  current_turn st < length turn_order /\ is_Some (turn_order !! current_turn st).
Proof.
  intros Hreach.
  assert (Hbound : current_turn st < length turn_order).
  { induction Hreach as [| st id value Hreach IH]; [cbn; lia |].
    apply on_input_turn_bound, IH. }
  split; [exact Hbound | apply lookup_lt_is_Some_2; exact Hbound].
Qed.

(** The state after a start and three end-of-turn signals. *)
Lemma turn_index_stays_in_rotation_witness :
  reachable ascii_lower
    (on_input ascii_lower
       (on_input ascii_lower
          (on_input ascii_lower
             (on_input ascii_lower initial "control" [lit "start"]).1
             "techer" [[]]).1
          "myself" [[]]).1
       "techer" [[]]).1
  /\ turn_order !! current_turn
       (on_input ascii_lower
          (on_input ascii_lower
             (on_input ascii_lower
                (on_input ascii_lower initial "control" [lit "start"]).1
                "techer" [[]]).1
             "myself" [[]]).1
          "techer" [[]]).1
     = Some "myself".
Proof.
  assert (H : reachable ascii_lower
                (on_input ascii_lower
                   (on_input ascii_lower
                      (on_input ascii_lower
                         (on_input ascii_lower initial "control" [lit "start"]).1
                         "techer" [[]]).1
                      "myself" [[]]).1
                   "techer" [[]]).1)
    by (repeat apply reachable_input; apply reachable_initial).
  split; [exact H |].
  destruct (turn_index_stays_in_rotation ascii_lower _ H) as [_ [speaker Hs]].
  reflexivity.
Defined.

(** X10: while running, end-of-turn signals make the turn go round the
    rotation: after [n] of them the index has advanced by [n] modulo 2,
    and the speakers told to speak alternate, starting with the one after
    the current speaker. *)
Theorem turns_alternate (lower : str -> str) (turn : nat) (events : list event) :
  turn < 2 ->
  Forall (fun ev => is_end_of_turn ev = true) events ->
  (loop lower (State turn true) events).1
    = State ((turn + length events) mod 2) true
  /\ speak_ports (loop lower (State turn true) events).2
     = map (fun k => if ((turn + k + 1) mod 2 =? 0)%nat
                     then "control_llm2" else "control_llm1")
         (seq 0 (length events)).
Proof.
  intros Hturn Hall. revert turn Hturn.
  induction Hall as [| ev events Hev Hall IH]; intros turn Hturn.
  - cbn [loop fst snd length seq map].
    rewrite Nat.add_0_r, Nat.mod_small by exact Hturn. split; reflexivity.
  - destruct ev as [id value metadata | | |]; try discriminate Hev.
    cbn [loop]. rewrite (on_input_end_of_turn lower turn id value metadata Hev).
    destruct (IH ((turn + 1) mod 2)) as [Hstate Hports];
      [apply Nat.mod_upper_bound; discriminate |].
    destruct (loop lower (State ((turn + 1) mod 2) true) events) as [st sent].
    cbn [fst snd length] in *. split.
    + rewrite Hstate. f_equal.
      rewrite Nat.Div0.add_mod_idemp_l. f_equal. lia.
    + rewrite speak_ports_app, speak_ports_signal. cbn [app].
      rewrite Hports. cbn [seq map]. rewrite Nat.add_0_r. f_equal.
      rewrite <- seq_shift, map_map. apply map_ext. intros k.
      rewrite <- Nat.add_assoc, Nat.Div0.add_mod_idemp_l.
      replace (turn + 1 + (k + 1)) with (turn + S k + 1) by lia. reflexivity.
Qed.

(** From "techer": "myself", "techer", "myself" are told to speak. *)
Lemma turns_alternate_witness :
  0 < 2
  /\ Forall (fun ev => is_end_of_turn ev = true)
       [INPUT "techer" [[]] ∅; INPUT "myself" [[]] ∅; INPUT "myself" [[]] ∅]
  /\ speak_ports
       (loop ascii_lower (State 0 true)
          [INPUT "techer" [[]] ∅; INPUT "myself" [[]] ∅; INPUT "myself" [[]] ∅]).2
     = ["control_llm1"; "control_llm2"; "control_llm1"].
Proof.
  assert (H : Forall (fun ev => is_end_of_turn ev = true)
                [INPUT "techer" [[]] ∅; INPUT "myself" [[]] ∅; INPUT "myself" [[]] ∅])
    by (repeat constructor).
  split; [lia |]. split; [exact H |].
  exact (proj2 (turns_alternate ascii_lower 0 _ (Nat.lt_0_succ 1) H)).
Defined.

(** X11: the coordinator acts on controls and, while running, on
    end-of-turn signals, and on nothing else: a run of other events
    (non-empty participant text, telemetry, errors, and any participant
    input while stopped) leaves its state as it is and sends nothing. *)
Theorem coordinator_acts_only_on_signals
    (lower : str -> str) (st : state) (events : list event) :
  Forall (fun ev =>
            negb (is_control ev)
            && negb (conversation_started st && is_end_of_turn ev) = true) events ->
  loop lower st events = (st, []).
Proof.
  induction 1 as [| ev events Hev Hall IH]; [reflexivity |].
  destruct ev as [id value metadata | | |]; cbn [loop]; try exact IH; [| reflexivity].
  rewrite (on_input_quiet lower st id value metadata Hev), IH. reflexivity.
Qed.

(** Text, telemetry and an error while "myself" holds the turn. *)
Lemma coordinator_acts_only_on_signals_witness :
  Forall (fun ev =>
            negb (is_control ev)
            && negb (conversation_started (State 1 true) && is_end_of_turn ev) = true)
    [INPUT "myself" [lit "hello"] ∅; INPUT "buffer_status" [lit "ok"] ∅; ERROR;
     INPUT "techer" [] ∅]
  /\ loop ascii_lower (State 1 true)
       [INPUT "myself" [lit "hello"] ∅; INPUT "buffer_status" [lit "ok"] ∅; ERROR;
        INPUT "techer" [] ∅]
     = (State 1 true, []).
Proof.
  assert (H : Forall (fun ev =>
                        negb (is_control ev)
                        && negb (conversation_started (State 1 true) && is_end_of_turn ev)
                        = true)
                [INPUT "myself" [lit "hello"] ∅; INPUT "buffer_status" [lit "ok"] ∅; ERROR;
                 INPUT "techer" [] ∅])
    by (repeat constructor).
  split; [exact H |].
  exact (coordinator_acts_only_on_signals ascii_lower (State 1 true) _ H).
Defined.

End ControllerLoopSpec.

(** ** More on the synthetic speaker *)

Module LlmLoopFacts.
Import Py fake_llm Observe Reference PyFacts LlmFacts.

Lemma on_input_cursor (lower : str -> str) (environ : gmap string str) (n : nat)
    (id : string) (value : list str) (metadata : gmap string meta_value) :
  keeps_cursor lower (INPUT id value metadata) = true ->
  (on_input lower environ n id value).1
  = n + length (List.filter is_prompt [INPUT id value metadata]).
Proof.
  unfold keeps_cursor, on_input, on_control, data0. cbn [List.filter is_prompt].
  destruct (String.eqb id "text"); [intros _; reflexivity |].
  cbn [length]. rewrite Nat.add_0_r.
  destruct (String.eqb id "control"); [| intros _; reflexivity].
  destruct value as [| control_data value]; [intros _; reflexivity |]. cbn [head andb].
  intros H. apply negb_true_iff in H. rewrite H. reflexivity.
Qed.

Lemma reply_in_responses (environ : gmap string str) (n : nat) :
  In (nth (n mod 5) (responses environ) []) (responses environ).
Proof.
  apply nth_In. rewrite responses_length. apply Nat.mod_upper_bound. discriminate.
Qed.

(** The utterances in what one input makes the speaker send. *)
Lemma utterances_on_input (lower : str -> str) (environ : gmap string str) (n : nat)
    (id : string) (value : list str) (rest : list output) :
  utterances [] ((on_input lower environ n id value).2 ++ rest)
  = (if String.eqb id "text" then [nth (n mod 5) (responses environ) []] else [])
    ++ utterances [] rest.
Proof.
  unfold on_input. destruct (String.eqb id "text").
  - rewrite utterances_on_text. reflexivity.
  - destruct (String.eqb id "control"); [| reflexivity].
    unfold on_control. destruct (data0 value); [| reflexivity].
    destruct (str_in _ _); reflexivity.
Qed.

(** The canned replies hold no whitespace. *)
Lemma responses_no_space (environ : gmap string str) :
  Forall (fun response => forallb (fun c => negb (isspace c)) response = true)
    (responses environ).
Proof.
  unfold responses. destruct (responses_of_cases (participant_id environ)) as [-> | ->];
    repeat constructor.
Qed.

Lemma deliver_cons_text (id : string) (o : output) (rest : list output) (s : str) :
  port o = "text" -> data o = Text s ->
  deliver id (o :: rest) = INPUT id [s] (meta o) :: deliver id rest.
Proof.
  intros Hport Hdata. unfold deliver. simpl. rewrite Hport, Hdata. reflexivity.
Qed.

(** Delivering what a prompt makes the speaker send: one event per
    character, then the end marker; the status is not on the text port. *)
Lemma deliver_chars (id : string) (response : str) :
  forall (f : nat -> N -> output),
  (forall i char, exists j, f i char = send_char j char) ->
  deliver id (imap f response)
  = imap (fun i char => INPUT id [[char]] (meta (f i char))) response.
Proof.
  induction response as [| char response IH]; intros f Hf; [reflexivity |].
  cbn [imap]. destruct (Hf 0 char) as [j Hj].
  rewrite (deliver_cons_text id (f 0 char) _ [char]) by (rewrite Hj; reflexivity).
  rewrite (IH (f ∘ S)); [reflexivity |]. intros i c. apply Hf.
Qed.

Lemma deliver_on_text (lower : str -> str) (environ : gmap string str) (id : string)
    (n : nat) (value : list str) :
  deliver id (on_input lower environ n "text" value).2
  = imap (fun i char => INPUT id [[char]] (meta (send_char i char)))
      (nth (n mod 5) (responses environ) [])
    ++ [INPUT id [[]] (meta end_marker)].
Proof.
  unfold on_input, on_text. cbn [String.eqb Ascii.eqb Bool.eqb snd].
  rewrite responses_length. unfold deliver at 1. rewrite omap_app.
  change (omap _ (imap send_char ?r)) with (deliver id (imap send_char r)).
  rewrite deliver_chars by (intros i c; exists i; reflexivity). reflexivity.
Qed.

End LlmLoopFacts.

Module LlmLoopSpec.
Import Py fake_llm Observe Reference PyFacts LlmFacts LlmLoopFacts.

(** X12: between two resets the cursor counts the prompts: after a run of
    events with no reset control and no STOP it has advanced by the number
    of inputs on the [text] port, readable or not. *)
Theorem cursor_counts_prompts
    (lower : str -> str) (environ : gmap string str) (n : nat) (events : list event) :
  Forall (fun ev => keeps_cursor lower ev && goes_on ev = true) events ->
  (loop lower environ n events).1 = n + length (List.filter is_prompt events).
Proof.
  intros Hall. revert n. induction Hall as [| ev events Hev Hall IH]; intros n.
  - cbn. lia.
  - apply andb_true_iff in Hev. destruct Hev as [Hkeep Hgo].
    destruct ev as [id value metadata | | |]; cbn [loop];
      [| discriminate Hgo | exact (IH n) | exact (IH n)].
    pose proof (on_input_cursor lower environ n id value metadata Hkeep) as Hstep.
    destruct (on_input lower environ n id value) as [n' sent].
    specialize (IH n'). destruct (loop lower environ n' events) as [n'' sent'].
    cbn [fst] in *. rewrite IH, Hstep.
    cbn [List.filter is_prompt]. destruct (String.eqb id "text"); cbn [length]; lia.
Qed.

(** Two prompts, one of them unreadable, around a control that is not a
    reset. *)
Lemma cursor_counts_prompts_witness :
  Forall (fun ev => keeps_cursor ascii_lower ev && goes_on ev = true)
    [prompt [lit "hello"]; INPUT "control" [lit "speak"] ∅; prompt []; ERROR]
  /\ (loop ascii_lower ∅ 3
        [prompt [lit "hello"]; INPUT "control" [lit "speak"] ∅; prompt []; ERROR]).1 = 5.
Proof.
  assert (H : Forall (fun ev => keeps_cursor ascii_lower ev && goes_on ev = true)
                [prompt [lit "hello"]; INPUT "control" [lit "speak"] ∅; prompt []; ERROR])
    by (repeat constructor).
  split; [exact H |].
  exact (cursor_counts_prompts ascii_lower ∅ 3 _ H).
Defined.

(** X13: every prompt is answered with exactly one utterance, and nothing
    else makes the speaker talk: resets or not, the utterances read off
    the [text] port are as many as the prompts received before the STOP,
    and each of them is one of the canned replies, whole. *)
Theorem one_reply_per_prompt
    (lower : str -> str) (environ : gmap string str) (n : nat) (events : list event) :
  Forall (fun ev => goes_on ev = true) events ->
  length (utterances [] (loop lower environ n events).2)
    = length (List.filter is_prompt events)
  /\ Forall (fun utterance => In utterance (responses environ))
       (utterances [] (loop lower environ n events).2).
Proof.
  intros Hall. revert n. induction Hall as [| ev events Hgo Hall IH]; intros n.
  - split; [reflexivity | constructor].
  - destruct ev as [id value metadata | | |]; cbn [loop];
      [| discriminate Hgo | exact (IH n) | exact (IH n)].
    pose proof (fun rest => utterances_on_input lower environ n id value rest) as Hstep.
    destruct (on_input lower environ n id value) as [n' sent].
    destruct (IH n') as [Hlen Hin]. destruct (loop lower environ n' events) as [n'' sent'].
    cbn [fst snd] in *. rewrite Hstep. cbn [List.filter is_prompt].
    destruct (String.eqb id "text"); cbn [app length].
    + split; [rewrite Hlen; reflexivity |].
      constructor; [apply reply_in_responses | exact Hin].
    + split; assumption.
Qed.

(** Two prompts with a reset in between: reply 0 twice. *)
Lemma one_reply_per_prompt_witness :
  Forall (fun ev => goes_on ev = true)
    [prompt [lit "a"]; INPUT "control" [lit "reset"] ∅; prompt [lit "b"]]
  /\ utterances []
       (loop ascii_lower ∅ 0
          [prompt [lit "a"]; INPUT "control" [lit "reset"] ∅; prompt [lit "b"]]).2
     = [nth 0 responses_myself []; nth 0 responses_myself []]
  /\ length
       (utterances []
          (loop ascii_lower ∅ 0
             [prompt [lit "a"]; INPUT "control" [lit "reset"] ∅; prompt [lit "b"]]).2)
     = 2.
Proof.
  assert (H : Forall (fun ev => goes_on ev = true)
                [prompt [lit "a"]; INPUT "control" [lit "reset"] ∅; prompt [lit "b"]])
    by (repeat constructor).
  split; [exact H |]. split; [reflexivity |].
  exact (proj1 (one_reply_per_prompt ascii_lower ∅ 0 _ H)).
Defined.

End LlmLoopSpec.

(** ** The nodes wired together *)

Module PipelineFacts.
Import Py Observe Reference PyFacts.

Lemma trimmed_no_space (s t : str) :
  forallb (fun c => negb (isspace c)) s = true -> trimmed s t -> t = s.
Proof.
  intros Hs Ht. induction Ht as [| x s t Hst IH | x s t Hx Hst IH]; [reflexivity | |];
    cbn [forallb] in Hs; apply andb_true_iff in Hs; destruct Hs as [Hx' Hs].
  - rewrite (IH Hs). reflexivity.
  - rewrite Hx in Hx'. discriminate.
Qed.

Lemma participant_not_control (id : string) :
  is_participant id = true ->
  String.eqb id "control" = false /\ String.eqb id "reset" = false.
Proof. intros H. destruct (participant_cases id H) as [-> | ->]; split; reflexivity. Qed.

Section Characters.
Variable id : string.
Variable f : nat -> N -> event.
Hypothesis f_char : forall i char, exists metadata, f i char = INPUT id [[char]] metadata.

Lemma received_chars (response : str) : received id (imap f response) = response.
Proof.
  revert f f_char. induction response as [| char response IH]; intros g Hg; [reflexivity |].
  cbn [imap]. unfold received in *. cbn [map concat].
  destruct (Hg 0 char) as [metadata ->]. cbn [fragment_of]. rewrite String.eqb_refl.
  rewrite (IH (g ∘ S)); [reflexivity |]. intros i c. apply Hg.
Qed.

Lemma Forall_chars (P : event -> Prop) (response : str) :
  (forall char metadata, P (INPUT id [[char]] metadata)) ->
  Forall P (imap f response).
Proof.
  intros HP. revert f f_char.
  induction response as [| char response IH]; intros g Hg; [constructor |].
  cbn [imap]. constructor.
  - destruct (Hg 0 char) as [metadata ->]. apply HP.
  - apply IH. intros i c. apply Hg.
Qed.

(** The coordinator lets the characters of a reply go by. *)
Lemma controller_loop_chars (lower : str -> str) (st : fake_conference_controller.state)
    (response : str) (rest : list event) :
  is_participant id = true ->
  fake_conference_controller.loop lower st (imap f response ++ rest)
  = fake_conference_controller.loop lower st rest.
Proof.
  intros Hid. revert f f_char.
  induction response as [| char response IH]; intros g Hg; [reflexivity |].
  cbn [imap app]. destruct (Hg 0 char) as [metadata ->].
  cbn [fake_conference_controller.loop].
  rewrite (ControllerLoopFacts.on_input_quiet lower st id [[char]] metadata).
  - rewrite (IH (g ∘ S)) by (intros i c; apply Hg).
    destruct (fake_conference_controller.loop lower st rest). reflexivity.
  - unfold is_control, is_end_of_turn.
    rewrite (proj1 (participant_not_control id Hid)), Hid.
    cbn. rewrite andb_false_r. reflexivity.
Qed.

(** The bridge forwards each character of a reply. *)
Lemma bridge_loop_chars (lower : str -> str) (environ : gmap string str)
    (response : str) (rest : list event) :
  is_participant id = true ->
  texts_on "text" (fake_bridge.loop lower environ (imap f response ++ rest))
  = map (fun char => [char]) response
    ++ texts_on "text" (fake_bridge.loop lower environ rest).
Proof.
  intros Hid. revert f f_char.
  induction response as [| char response IH]; intros g Hg; [reflexivity |].
  cbn [imap app map]. destruct (Hg 0 char) as [metadata ->].
  cbn [fake_bridge.loop].
  rewrite SegmenterFacts.texts_on_app, (IH (g ∘ S)) by (intros i c; apply Hg).
  unfold fake_bridge.on_input.
  rewrite (proj1 (participant_not_control id Hid)), Hid. reflexivity.
Qed.

End Characters.

End PipelineFacts.

Module PipelineSpec.
Import Py Observe Reference PyFacts LlmFacts LlmLoopFacts PipelineFacts.

Lemma char_events (id : string) :
  forall i char, exists metadata,
    INPUT id [[char]] (meta (fake_llm.send_char i char)) = INPUT id [[char]] metadata.
Proof. intros i char. eexists. reflexivity. Qed.

(** X14: the synthetic speaker wired to the segmenter.  What a prompt
    makes the speaker stream, delivered on that speaker's port of a
    segmenter with empty buffers, comes out as chunks that put end to end
    are exactly the reply, and the end marker leaves the buffer empty. *)
Theorem streamed_reply_is_segmented_whole
    (lower : str -> str) (environ : gmap string str) (n : nat) (value : list str)
    (sp : string) :
  is_participant sp = true ->
  let reply := nth (n mod 5) (fake_llm.responses environ) [] in
  let events := deliver sp (fake_llm.on_input lower environ n "text" value).2 in
  concat (texts_on (fake_text_segmenter.segment_port sp)
            (fake_text_segmenter.loop lower fake_text_segmenter.fresh_buffers events).2)
  = reply
  /\ (fake_text_segmenter.loop lower fake_text_segmenter.fresh_buffers events).1 !!! sp = [].
Proof.
  intros Hsp. cbv zeta. rewrite deliver_on_text.
  set (reply := nth (n mod 5) (fake_llm.responses environ) []).
  set (f := fun i char => INPUT sp [[char]] (meta (fake_llm.send_char i char))).
  set (marker := INPUT sp [[]] (meta fake_llm.end_marker)).
  destruct (participant_not_control sp Hsp) as [Hc Hr].
  assert (Hing : Forall (fun ev => ingests lower ev = true) (imap f reply ++ [marker])).
  { apply Forall_app. split.
    - apply (Forall_chars sp f (char_events sp)). intros char metadata.
      unfold ingests, is_reset. rewrite Hc, Hr. reflexivity.
    - repeat constructor. unfold ingests, marker, is_reset. rewrite Hc, Hr. reflexivity. }
  assert (Hgo : Forall (fun ev => goes_on ev = true) (imap f reply)).
  { apply (Forall_chars sp f (char_events sp)). reflexivity. }
  assert (Hrec : received sp (imap f reply ++ [marker]) = reply).
  { unfold received. rewrite map_app, concat_app.
    fold (received sp (imap f reply)). rewrite (received_chars sp f (char_events sp)).
    cbn. rewrite String.eqb_refl. cbn. apply app_nil_r. }
  pose proof (SegmenterFacts.loop_conserves lower sp (imap f reply ++ [marker]) Hsp
                fake_text_segmenter.fresh_buffers Hing) as Hcons.
  rewrite Hrec, (SegmenterSpec.fresh_buffers_empty sp Hsp) in Hcons. cbn [app] in Hcons.
  assert (Hbuf : (fake_text_segmenter.loop lower fake_text_segmenter.fresh_buffers
                    (imap f reply ++ [marker])).1 !!! sp = []).
  { rewrite (SegmenterLoopFacts.segmenter_loop_app lower _ _ _ Hgo).
    destruct (fake_text_segmenter.loop lower fake_text_segmenter.fresh_buffers (imap f reply))
      as [buffers1 sent1].
    unfold marker. cbn [fake_text_segmenter.loop]. unfold fake_text_segmenter.on_input.
    rewrite Hsp.
    pose proof (SegmenterLoopFacts.on_text_buffer_after buffers1 sp [] []
                  (meta fake_llm.end_marker)) as Hafter.
    assert (Hflags : get_flag (meta fake_llm.end_marker) "streaming"
                     && negb (get_flag (meta fake_llm.end_marker) "complete") = false)
      by reflexivity.
    rewrite Hflags in Hafter.
    destruct (fake_text_segmenter.on_text buffers1 sp [[]] (meta fake_llm.end_marker))
      as [buffers2 sent2] eqn:Hon.
    assert (Hempty : nonempty (buffers2 !!! sp) = false).
    { change buffers2 with (buffers2, sent2).1. rewrite <- Hon. exact Hafter. }
    cbn [fst]. destruct (buffers2 !!! sp); [reflexivity | discriminate Hempty]. }
  split; [| exact Hbuf].
  rewrite Hbuf, app_nil_r in Hcons.
  apply (trimmed_no_space reply); [| exact Hcons].
  pose proof (responses_no_space environ) as Hall.
  rewrite Forall_forall in Hall. apply Hall, list_elem_of_In, reply_in_responses.
Qed.

(** The second reply of "techer", streamed to the segmenter. *)
Lemma streamed_reply_is_segmented_whole_witness :
  is_participant "techer" = true
  /\ concat
       (texts_on (fake_text_segmenter.segment_port "techer")
          (fake_text_segmenter.loop ascii_lower fake_text_segmenter.fresh_buffers
             (deliver "techer"
                (fake_llm.on_input ascii_lower {["PARTICIPANT_ID" := lit "techer"]} 1
                   "text" [lit "hello"]).2)).2)
     = nth (1 mod 5)
         (fake_llm.responses {["PARTICIPANT_ID" := lit "techer"]}) [].
Proof.
  split; [reflexivity |].
  exact (proj1 (streamed_reply_is_segmented_whole ascii_lower
                  {["PARTICIPANT_ID" := lit "techer"]} 1 [lit "hello"] "techer" eq_refl)).
Defined.

(** X15: the synthetic speaker wired to the coordinator.  The characters
    of a streamed reply leave the coordinator as it is; the end marker
    then acts as the one end-of-turn signal: while running, the turn
    advances once and the next speaker is told to speak. *)
Theorem streamed_reply_passes_the_turn_once
    (lower : str -> str) (environ : gmap string str) (n : nat) (value : list str)
    (id : string) (turn : nat) :
  is_participant id = true ->
  fake_conference_controller.loop lower (fake_conference_controller.State turn true)
    (deliver id (fake_llm.on_input lower environ n "text" value).2)
  = (fake_conference_controller.State ((turn + 1) mod 2) true,
     [send (if ((turn + 1) mod 2 =? 0)%nat then "control_llm2" else "control_llm1")
        (Text (lit "speak"));
      turn_change (if ((turn + 1) mod 2 =? 0)%nat then "techer" else "myself")])
  /\ fake_conference_controller.loop lower (fake_conference_controller.State turn false)
       (deliver id (fake_llm.on_input lower environ n "text" value).2)
     = (fake_conference_controller.State turn false, []).
Proof.
  intros Hid. rewrite deliver_on_text.
  rewrite !(controller_loop_chars id _ (char_events id) lower _ _ _ Hid).
  cbn [fake_conference_controller.loop]. split.
  - rewrite (ControllerLoopFacts.on_input_end_of_turn lower turn id [[]]
               (meta fake_llm.end_marker)); [reflexivity |].
    unfold is_end_of_turn. rewrite Hid. reflexivity.
  - unfold fake_conference_controller.on_input.
    rewrite (proj1 (participant_not_control id Hid)), Hid. reflexivity.
Qed.

(** "techer" finishes its first reply: "myself" is told to speak. *)
Lemma streamed_reply_passes_the_turn_once_witness :
  is_participant "techer" = true
  /\ fake_conference_controller.loop ascii_lower (fake_conference_controller.State 0 true)
       (deliver "techer"
          (fake_llm.on_input ascii_lower {["PARTICIPANT_ID" := lit "techer"]} 0
             "text" [lit "hello"]).2)
     = (fake_conference_controller.State 1 true,
        [send "control_llm1" (Text (lit "speak")); turn_change "myself"]).
Proof.
  split; [reflexivity |].
  exact (proj1 (streamed_reply_passes_the_turn_once ascii_lower
                  {["PARTICIPANT_ID" := lit "techer"]} 0 [lit "hello"] "techer" 0 eq_refl)).
Defined.

(** X16: the synthetic speaker wired to a bridge.  The bridge forwards
    the characters of a streamed reply one by one, in order, and drops the
    end marker: what it sends on [text] is the reply, character by
    character, and nothing after it. *)
Theorem streamed_reply_is_forwarded_without_marker
    (lower : str -> str) (environ bridge_environ : gmap string str) (n : nat)
    (value : list str) (id : string) :
  is_participant id = true ->
  texts_on "text"
    (fake_bridge.loop lower bridge_environ
       (deliver id (fake_llm.on_input lower environ n "text" value).2))
  = map (fun char => [char]) (nth (n mod 5) (fake_llm.responses environ) []).
Proof.
  intros Hid. rewrite deliver_on_text.
  rewrite (bridge_loop_chars id _ (char_events id) lower bridge_environ _ _ Hid).
  cbn [fake_bridge.loop]. unfold fake_bridge.on_input.
  rewrite (proj1 (participant_not_control id Hid)), Hid. cbn. apply app_nil_r.
Qed.

(** The first reply of "myself" through the bridge towards "techer". *)
Lemma streamed_reply_is_forwarded_without_marker_witness :
  is_participant "myself" = true
  /\ texts_on "text"
       (fake_bridge.loop ascii_lower {["BRIDGE_TARGET" := lit "techer"]}
          (deliver "myself" (fake_llm.on_input ascii_lower ∅ 0 "text" []).2))
     = map (fun char => [char]) (nth (0 mod 5) (fake_llm.responses ∅) []).
Proof.
  split; [reflexivity |].
  exact (streamed_reply_is_forwarded_without_marker ascii_lower ∅
           {["BRIDGE_TARGET" := lit "techer"]} 0 [] "myself" eq_refl).
Defined.

End PipelineSpec.

(** ** More on the synthetic audio and on the bridge *)

Module TtsLoopSpec.
Import Py fake_tts Observe Reference PyFacts TtsSpec.

Lemma default_num_samples_text (text : str) :
  length text <= 4000 ->
  num_samples text default_sample_rate default_duration_per_char
  = Ok (2205 * Z.of_nat (length text) / 2)%Z.
Proof. intros Hlen. exact (default_num_samples_floor (length text) Hlen). Qed.

(** X17: with the default rate and duration per character, and up to 4000
    characters, a longer text never gets fewer samples than a shorter
    one, and a text gets between 1102 and 1103 samples per character. *)
Theorem samples_grow_with_length (shorter longer : str) :
  length shorter <= length longer ->
  length longer <= 4000 ->
  exists n m : Z,
    num_samples shorter default_sample_rate default_duration_per_char = Ok n
    /\ num_samples longer default_sample_rate default_duration_per_char = Ok m
    /\ (n <= m)%Z
    /\ (1102 * Z.of_nat (length longer) <= m <= 1103 * Z.of_nat (length longer))%Z.
Proof.
  intros Hle Hlen.
  exists (2205 * Z.of_nat (length shorter) / 2)%Z, (2205 * Z.of_nat (length longer) / 2)%Z.
  split; [apply default_num_samples_text; lia |].
  split; [apply default_num_samples_text; exact Hlen |].
  split.
  - apply Z.div_le_mono; lia.
  - split.
    + apply Z.div_le_lower_bound; lia.
    + apply Z.div_le_upper_bound; lia.
Qed.

(** One character against three. *)
Lemma samples_grow_with_length_witness :
  length (lit "a") <= length (lit "abc")
  /\ length (lit "abc") <= 4000
  /\ exists n m : Z,
       num_samples (lit "a") default_sample_rate default_duration_per_char = Ok n
       /\ num_samples (lit "abc") default_sample_rate default_duration_per_char = Ok m
       /\ (n <= m)%Z.
Proof.
  assert (H1 : length (lit "a") <= length (lit "abc")) by (cbn; lia).
  assert (H2 : length (lit "abc") <= 4000) by (cbn; lia).
  split; [exact H1 |]. split; [exact H2 |].
  destruct (samples_grow_with_length (lit "a") (lit "abc") H1 H2)
    as (n & m & Hn & Hm & Hle & _).
  exists n, m. split; [exact Hn |]. split; [exact Hm | exact Hle].
Defined.

(** X18: for a non-empty text of up to 4000 characters the TTS sends, in
    this order, the audio, a status and a segment-complete signal; the
    audio is silence of 2 bytes per sample at 22050 Hz, mono, s16le, and
    the status reports the true length of the text and the true number of
    audio bytes. *)
Theorem tts_reports_what_it_sends
    (environ : gmap string str) (index_error : str) (text_data : str) (rest : list str) :
  nonempty text_data = true ->
  length text_data <= 4000 ->
  let samples := (2205 * Z.of_nat (length text_data) / 2)%Z in
  let audio_bytes := replicate (2 * Z.to_nat samples) Byte.x00 in
  on_text environ index_error (text_data :: rest) =
    [Output "audio" (Bytes audio_bytes)
       (<["sample_rate" := MInt 22050]>
        (<["channels" := MInt 1]>
        (<["format" := MStr (lit "s16le")]>
        (<["text" := MStr text_data]>
        (<["voice" := MStr (voice_name environ)]>
        (<["participant" := MStr (participant_id environ)]> ∅))))));
     send "status" (Json [("status", JStr (lit "synthesized"));
                          ("text_length", JInt (Z.of_nat (length text_data)));
                          ("audio_bytes", JInt (2 * samples));
                          ("voice", JStr (voice_name environ))]);
     send "segment_complete" (Json [("text", JStr text_data);
                                    ("voice", JStr (voice_name environ))])].
Proof.
  intros Hne Hlen. cbv zeta. unfold on_text, data0. cbn [head]. rewrite Hne.
  assert (Hpos : (0 <= 2205 * Z.of_nat (length text_data) / 2)%Z)
    by (apply Z.div_pos; lia).
  unfold generate_fake_audio. rewrite (default_num_samples_text text_data Hlen).
  rewrite (proj2 (Z.ltb_ge _ 0) Hpos), silence_bytes, length_replicate.
  replace (Z.of_nat (2 * Z.to_nat (2205 * Z.of_nat (length text_data) / 2)))
    with (2 * (2205 * Z.of_nat (length text_data) / 2))%Z by lia.
  reflexivity.
Qed.

(** "Hi": 2205 samples, 4410 bytes. *)
Lemma tts_reports_what_it_sends_witness :
  nonempty (lit "Hi") = true
  /\ length (lit "Hi") <= 4000
  /\ sent_on "status" (on_text ∅ [] [lit "Hi"])
     = [send "status" (Json [("status", JStr (lit "synthesized"));
                             ("text_length", JInt 2);
                             ("audio_bytes", JInt 4410);
                             ("voice", JStr (lit "Default"))])].
Proof.
  assert (Hlen : length (lit "Hi") <= 4000) by (cbn; lia).
  split; [reflexivity |]. split; [exact Hlen |].
  rewrite (tts_reports_what_it_sends ∅ [] (lit "Hi") [] eq_refl Hlen). reflexivity.
Defined.

End TtsLoopSpec.

Module BridgeLoopSpec.
Import Py fake_bridge Observe Reference PyFacts.

Lemma bridge_on_input_text (lower : str -> str) (environ : gmap string str)
    (id : string) (value : list str) (metadata : gmap string meta_value) :
  is_control (INPUT id value metadata) = false ->
  texts_on "text" (on_input lower environ id value)
  = match participant_text (INPUT id value metadata) with
    | Some text_data => [text_data]
    | None => []
    end.
Proof.
  unfold is_control, on_input, on_participant, participant_text, data0. intros Hctl.
  rewrite Hctl. destruct (is_participant id); [| destruct value; reflexivity].
  destruct value as [| text_data value]; [reflexivity |]. cbn [head andb].
  destruct (nonempty text_data); reflexivity.
Qed.

(** X19: apart from the prompts it makes up for controls, the bridge is a
    filter: for a run of events without a control, what it sends on
    [text] is the non-empty texts received on the participant ports,
    unchanged and in the order they came; empty and unreadable values and
    the other ports give nothing. *)
Theorem bridge_forwards_in_order
    (lower : str -> str) (environ : gmap string str) (events : list event) :
  Forall (fun ev => negb (is_control ev) && goes_on ev = true) events ->
  texts_on "text" (loop lower environ events) = omap participant_text events.
Proof.
  induction 1 as [| ev events Hev Hall IH]; [reflexivity |].
  apply andb_true_iff in Hev. destruct Hev as [Hctl Hgo]. apply negb_true_iff in Hctl.
  destruct ev as [id value metadata | | |]; cbn [loop];
    [| discriminate Hgo | exact IH | exact IH].
  rewrite SegmenterFacts.texts_on_app, IH,
    (bridge_on_input_text lower environ id value metadata Hctl).
  change (omap participant_text (INPUT id value metadata :: events))
    with (match participant_text (INPUT id value metadata) with
          | Some y => y :: omap participant_text events
          | None => omap participant_text events
          end).
  destruct (participant_text (INPUT id value metadata)); reflexivity.
Qed.

(** "A", an end marker, telemetry, "B". *)
Lemma bridge_forwards_in_order_witness :
  Forall (fun ev => negb (is_control ev) && goes_on ev = true)
    [INPUT "techer" [lit "A"] ∅; INPUT "techer" [[]] ∅;
     INPUT "session_start" [lit "x"] ∅; INPUT "myself" [lit "B"] ∅]
  /\ texts_on "text"
       (loop ascii_lower ∅
          [INPUT "techer" [lit "A"] ∅; INPUT "techer" [[]] ∅;
           INPUT "session_start" [lit "x"] ∅; INPUT "myself" [lit "B"] ∅])
     = [lit "A"; lit "B"].
Proof.
  assert (H : Forall (fun ev => negb (is_control ev) && goes_on ev = true)
                [INPUT "techer" [lit "A"] ∅; INPUT "techer" [[]] ∅;
                 INPUT "session_start" [lit "x"] ∅; INPUT "myself" [lit "B"] ∅])
    by (repeat constructor).
  split; [exact H |].
  exact (bridge_forwards_in_order ascii_lower ∅ _ H).
Defined.

End BridgeLoopSpec.

Module VoicedChunksSpec.
Import Py Observe Reference PyFacts SegmentFacts SplitFacts.

Lemma trimmed_length (s t : str) : trimmed s t -> length t <= length s.
Proof. induction 1; cbn [length]; lia. Qed.

Lemma In_concat_length (chunk : str) (chunks : list str) :
  In chunk chunks -> length chunk <= length (concat chunks).
Proof.
  induction chunks as [| c chunks IH]; intros Hin; [destruct Hin |].
  cbn [concat]. rewrite length_app. destruct Hin as [-> | Hin]; [lia |].
  specialize (IH Hin). lia.
Qed.

(** X20: the segmenter wired to the TTS.  Every chunk the segmenter cuts
    out of a text of up to 4000 characters makes the TTS send audio, never
    an error and never nothing: the chunk is not empty, and its audio has
    at least 1102 samples. *)
Theorem every_chunk_is_voiced
    (environ : gmap string str) (index_error : str) (text chunk : str) (rest : list str) :
  length text <= 4000 ->
  In chunk (fake_text_segmenter.segment_text text) ->
  exists audio_bytes metadata others,
    fake_tts.on_text environ index_error (chunk :: rest)
    = Output "audio" (Bytes audio_bytes) metadata :: others
    /\ (1102 <= sample_count audio_bytes)%Z.
Proof.
  intros Hlen Hin.
  assert (Hchunk : nonempty chunk = true).
  { pose proof (SplitSpec.scan_segments_trimmed text []) as Hall.
    rewrite <- segment_text_scan, Forall_forall in Hall.
    apply list_elem_of_In in Hin. exact (proj1 (Hall chunk Hin)). }
  assert (Hshort : length chunk <= 4000).
  { pose proof (In_concat_length chunk _ Hin) as H1.
    pose proof (trimmed_length _ _ (segment_text_trimmed text)) as H2. lia. }
  unfold fake_tts.on_text, data0. cbn [head]. rewrite Hchunk.
  assert (Hone : (1 <= Z.of_nat (length chunk))%Z) by (destruct chunk; [discriminate | cbn [length]; lia]).
  assert (Hlow : (1102 <= 2205 * Z.of_nat (length chunk) / 2)%Z)
    by (apply Z.div_le_lower_bound; lia).
  unfold fake_tts.generate_fake_audio.
  rewrite (TtsLoopSpec.default_num_samples_text chunk Hshort).
  assert (Hpos : (0 <= 2205 * Z.of_nat (length chunk) / 2)%Z) by lia.
  rewrite (proj2 (Z.ltb_ge _ 0) Hpos), TtsSpec.silence_bytes.
  eexists _, _, _. split; [reflexivity |].
  unfold sample_count. rewrite length_replicate.
  replace (Z.of_nat (2 * Z.to_nat (2205 * Z.of_nat (length chunk) / 2)))
    with ((2205 * Z.of_nat (length chunk) / 2) * 2)%Z by lia.
  rewrite Z.div_mul by lia. exact Hlow.
Qed.

(** The chunk "Hi." of "Hi. How". *)
Lemma every_chunk_is_voiced_witness :
  length (lit "Hi. How") <= 4000
  /\ In (lit "Hi.") (fake_text_segmenter.segment_text (lit "Hi. How"))
  /\ exists audio_bytes metadata others,
       fake_tts.on_text ∅ [] [lit "Hi."]
       = Output "audio" (Bytes audio_bytes) metadata :: others
       /\ (1102 <= sample_count audio_bytes)%Z.
Proof.
  assert (Hlen : length (lit "Hi. How") <= 4000) by (cbn; lia).
  assert (Hin : In (lit "Hi.") (fake_text_segmenter.segment_text (lit "Hi. How")))
    by (left; reflexivity).
  split; [exact Hlen |]. split; [exact Hin |].
  exact (every_chunk_is_voiced ∅ [] (lit "Hi. How") (lit "Hi.") [] Hlen Hin).
Defined.

End VoicedChunksSpec.

(** ** Where the segmenter trims whitespace *)

Module BoundaryFacts.
Import Py fake_text_segmenter Observe Reference PyFacts SegmentFacts SegmenterFacts
  SplitFacts StripFacts.












End BoundaryFacts.

Module BoundaryLoopFacts.
Import Py fake_text_segmenter Observe Reference PyFacts SegmentFacts SegmenterFacts
  BoundaryFacts.






End BoundaryLoopFacts.

Module ConservationSpec.
Import Py fake_text_segmenter Observe Reference PyFacts SegmentFacts SegmenterFacts
  BoundaryFacts BoundaryLoopFacts.




End ConservationSpec.
